(** * 3D-building: a shallow embedding of [Main.cpp]

    The program is one translation unit: two GLSL shaders kept as string
    constants, [createShaderProgram], [initGLFWandGLAD], the [Camera] class
    and [main] with its render loop.

    Conventions of the embedding.
    - [float] / [GLfloat] values are read as real numbers ([R]) and each
      float operation as the real operation in its place.  That reading
      carries data flow and the order of the operations, not rounding,
      underflow or overflow; where those decide a property, the module
      [binary32] gives the camera update on IEEE-754 binary32 values.
    - [GLuint], [GLint] and [int] values are integers ([Z]).
    - What the program reads from its environment (GLFW, the GL driver,
      the image loader, the clock, the keyboard) is an explicit input.
    - What the program does to its environment (lines on standard error,
      GL calls, the window's should-close flag) is recorded in a [World]
      that is threaded through the code by a small monad with [exit]. *)

From Stdlib Require Import Reals Lra Psatz ZArith List String Bool Lia.
From Stdlib Require Import Floats.SpecFloat.
Import ListNotations.

Open Scope R_scope.

(** ** The parts of GLM the program uses

    GLM is a header library outside the repository.  The definitions below
    follow its reference implementation ([func_geometric.inl],
    [matrix_transform.inl], [matrix_clip_space.inl]) with [T = float]. *)

Module glm.

Record vec2 := mkvec2 { sx : R; sy : R }.
Record vec3 := mkvec3 { vx : R; vy : R; vz : R }.
Record vec4 := mkvec4 { wx : R; wy : R; wz : R; ww : R }.

(** Column-major, as in GLM: [m[i]] is column [i]. *)
Record mat4 := mkmat4 { col0 : vec4; col1 : vec4; col2 : vec4; col3 : vec4 }.

Definition vzero : vec3 := mkvec3 0 0 0.

(** [a + b], [a - b] and [v * s] on [vec3]. *)
Definition vadd (a b : vec3) : vec3 :=
  mkvec3 (vx a + vx b) (vy a + vy b) (vz a + vz b).
Definition vsub (a b : vec3) : vec3 :=
  mkvec3 (vx a - vx b) (vy a - vy b) (vz a - vz b).
Definition vscale (v : vec3) (s : R) : vec3 :=
  mkvec3 (vx v * s) (vy v * s) (vz v * s).

Definition dot (a b : vec3) : R :=
  vx a * vx b + vy a * vy b + vz a * vz b.

Definition cross (a b : vec3) : vec3 :=
  mkvec3 (vy a * vz b - vy b * vz a)
         (vz a * vx b - vz b * vx a)
         (vx a * vy b - vx b * vy a).

Definition length (v : vec3) : R := sqrt (dot v v).

(** Over the reals [1 / sqrt 0] is 0 and nothing underflows or overflows;
    on binary32 values [1 / sqrt 0] is +infinity, see
    [binary32.inversesqrt]. *)
Definition inversesqrt (a : R) : R := 1 / sqrt a.

(** [glm::normalize(v)] is [v * inversesqrt(dot(v, v))]. *)
Definition normalize (v : vec3) : vec3 := vscale v (inversesqrt (dot v v)).

Definition radians (degrees : R) : R := degrees * (PI / 180).

(** [vec4(v, w)] and the componentwise product of two [vec4]. *)
Definition vec4_of (v : vec3) (w : R) : vec4 := mkvec4 (vx v) (vy v) (vz v) w.
Definition vmul4 (a b : vec4) : vec4 :=
  mkvec4 (wx a * wx b) (wy a * wy b) (wz a * wz b) (ww a * ww b).
Definition vadd4 (a b : vec4) : vec4 :=
  mkvec4 (wx a + wx b) (wy a + wy b) (wz a + wz b) (ww a + ww b).
Definition vscale4 (v : vec4) (s : R) : vec4 :=
  mkvec4 (wx v * s) (wy v * s) (wz v * s) (ww v * s).

(** [glm::mat4(1.0f)]. *)
Definition mat4_diag (d : R) : mat4 :=
  mkmat4 (mkvec4 d 0 0 0) (mkvec4 0 d 0 0) (mkvec4 0 0 d 0) (mkvec4 0 0 0 d).

(** [glm::rotate(m, angle, v)]: the axis is normalised, the upper 3x3
    rotation block is built from it and the first three columns of [m]
    are recombined; the fourth column of [m] is kept. *)
Definition rotate (m : mat4) (angle : R) (v : vec3) : mat4 :=
  let a := angle in
  let c := cos a in
  let s := sin a in
  let axis := normalize v in
  let temp := vscale axis (1 - c) in
  let r00 := c + vx temp * vx axis in
  let r01 := vx temp * vy axis + s * vz axis in
  let r02 := vx temp * vz axis - s * vy axis in
  let r10 := vy temp * vx axis - s * vz axis in
  let r11 := c + vy temp * vy axis in
  let r12 := vy temp * vz axis + s * vx axis in
  let r20 := vz temp * vx axis + s * vy axis in
  let r21 := vz temp * vy axis - s * vx axis in
  let r22 := c + vz temp * vz axis in
  mkmat4
    (vadd4 (vadd4 (vscale4 (col0 m) r00) (vscale4 (col1 m) r01))
           (vscale4 (col2 m) r02))
    (vadd4 (vadd4 (vscale4 (col0 m) r10) (vscale4 (col1 m) r11))
           (vscale4 (col2 m) r12))
    (vadd4 (vadd4 (vscale4 (col0 m) r20) (vscale4 (col1 m) r21))
           (vscale4 (col2 m) r22))
    (col3 m).

(** [glm::lookAt(eye, center, up)], right-handed. *)
Definition lookAt (eye center up : vec3) : mat4 :=
  let f := normalize (vsub center eye) in
  let s := normalize (cross f up) in
  let u := cross s f in
  mkmat4 (mkvec4 (vx s) (vx u) (- vx f) 0)
         (mkvec4 (vy s) (vy u) (- vy f) 0)
         (mkvec4 (vz s) (vz u) (- vz f) 0)
         (mkvec4 (- dot s eye) (- dot u eye) (dot f eye) 1).

(** [glm::perspective(fovy, aspect, zNear, zFar)], right-handed, depth
    range -1..1. *)
Definition perspective (fovy aspect zNear zFar : R) : mat4 :=
  let tanHalfFovy := tan (fovy / 2) in
  mkmat4 (mkvec4 (1 / (aspect * tanHalfFovy)) 0 0 0)
         (mkvec4 0 (1 / tanHalfFovy) 0 0)
         (mkvec4 0 0 (- (zFar + zNear) / (zFar - zNear)) (-1))
         (mkvec4 0 0 (- (2 * zFar * zNear) / (zFar - zNear)) 0).

End glm.

Import glm.

(** ** GLFW key codes used by the program (values of [GLFW/glfw3.h]) *)

Definition GLFW_KEY_A : Z := 65%Z.
Definition GLFW_KEY_D : Z := 68%Z.
Definition GLFW_KEY_E : Z := 69%Z.
Definition GLFW_KEY_L : Z := 76%Z.
Definition GLFW_KEY_Q : Z := 81%Z.
Definition GLFW_KEY_S : Z := 83%Z.
Definition GLFW_KEY_W : Z := 87%Z.
Definition GLFW_KEY_ESCAPE : Z := 256%Z.

(** ** The [Camera] class *)

Record Camera := mkCamera {
  Position : vec3;
  Front : vec3;
  Up : vec3;
  Right : vec3;
  WorldUp : vec3;
  Yaw : R;
  Pitch : R;
  MovementSpeed : R;
  MouseSensitivity : R;
  Zoom : R
}.

Definition set_Position (p : vec3) (c : Camera) : Camera :=
  mkCamera p (Front c) (Up c) (Right c) (WorldUp c)
           (Yaw c) (Pitch c) (MovementSpeed c) (MouseSensitivity c) (Zoom c).

(** The local [front] of [updateCameraVectors], before normalisation. *)
Definition front_of (yaw pitch : R) : vec3 :=
  mkvec3 (cos (radians yaw) * cos (radians pitch))
         (sin (radians pitch))
         (sin (radians yaw) * cos (radians pitch)).

Definition updateCameraVectors (c : Camera) : Camera :=
  let front := front_of (Yaw c) (Pitch c) in
  let Front' := normalize front in
  let Right' := normalize (cross Front' (WorldUp c)) in
  let Up' := normalize (cross Right' Front') in
  mkCamera (Position c) Front' Up' Right' (WorldUp c)
           (Yaw c) (Pitch c) (MovementSpeed c) (MouseSensitivity c) (Zoom c).

(** The constructor.  The member initialiser list sets [Front],
    [MovementSpeed], [MouseSensitivity] and [Zoom]; the body assigns
    [Position], [WorldUp], [Yaw], [Pitch] and calls [updateCameraVectors].
    [Up] and [Right] have no initialiser: [updateCameraVectors] assigns both
    without reading them (see [updateCameraVectors_ignores_basis]), so the
    placeholder below never shows. *)
Definition Camera_new (position up : vec3) (yaw pitch : R) : Camera :=
  updateCameraVectors
    (mkCamera position (mkvec3 0 0 (-1)) vzero vzero up
              yaw pitch 2.5 0.1 45).

Definition GetViewMatrix (c : Camera) : mat4 :=
  lookAt (Position c) (vadd (Position c) (Front c)) (Up c).

(** [ProcessKeyboard]: six independent [if] statements, in source order. *)
Definition ProcessKeyboard (direction : Z) (deltaTime : R) (c : Camera) : Camera :=
  let velocity := MovementSpeed c * deltaTime in
  let c := if Z.eqb direction GLFW_KEY_W
           then set_Position (vadd (Position c) (vscale (Front c) velocity)) c
           else c in
  let c := if Z.eqb direction GLFW_KEY_S
           then set_Position (vsub (Position c) (vscale (Front c) velocity)) c
           else c in
  let c := if Z.eqb direction GLFW_KEY_A
           then set_Position (vsub (Position c) (vscale (Right c) velocity)) c
           else c in
  let c := if Z.eqb direction GLFW_KEY_D
           then set_Position (vadd (Position c) (vscale (Right c) velocity)) c
           else c in
  let c := if Z.eqb direction GLFW_KEY_Q
           then set_Position (vadd (Position c) (vscale (Up c) velocity)) c
           else c in
  let c := if Z.eqb direction GLFW_KEY_E
           then set_Position (vsub (Position c) (vscale (Up c) velocity)) c
           else c in
  c.

(** Front, Right and Up are unit vectors and pairwise orthogonal. *)
Definition orthonormal_basis (c : Camera) : Prop :=
  length (Front c) = 1 /\ length (Right c) = 1 /\ length (Up c) = 1 /\
  dot (Front c) (Right c) = 0 /\ dot (Front c) (Up c) = 0 /\
  dot (Right c) (Up c) = 0.

(** ** The fragment shader

    [fragmentShaderSource] is GLSL; its [main] is embedded as a function of
    the two uniforms ([texture1], [lightOn]) and the two interpolated
    inputs ([ourColor], [TexCoord]), returning the output [FragColor]. *)

Module FragmentShader.

(** A bound [sampler2D]: what [texture(texture1, uv)] returns at [uv]. *)
Definition sampler2D := vec2 -> vec4.

Definition texture (s : sampler2D) (uv : vec2) : vec4 := s uv.

Definition main (texture1 : sampler2D) (lightOn : bool)
                (ourColor : vec3) (TexCoord : vec2) : vec4 :=
  let texColor := texture texture1 TexCoord in
  if lightOn then vmul4 texColor (vec4_of ourColor 1)
  else vec4_of ourColor 1.

End FragmentShader.

(** ** The environment: API calls, standard error, the window flag *)

Inductive GLenum :=
| GL_VERTEX_SHADER | GL_FRAGMENT_SHADER
| GL_ARRAY_BUFFER | GL_ELEMENT_ARRAY_BUFFER | GL_STATIC_DRAW
| GL_FLOAT | GL_UNSIGNED_INT | GL_UNSIGNED_BYTE
| GL_TEXTURE_2D | GL_TEXTURE_WRAP_S | GL_TEXTURE_WRAP_T
| GL_TEXTURE_MIN_FILTER | GL_TEXTURE_MAG_FILTER | GL_REPEAT | GL_LINEAR
| GL_RGB | GL_TRIANGLES | GL_DEPTH_TEST
| GL_COMPILE_STATUS | GL_LINK_STATUS.

Inductive GLFWhint :=
| GLFW_CONTEXT_VERSION_MAJOR | GLFW_CONTEXT_VERSION_MINOR | GLFW_OPENGL_PROFILE.

Definition GLFW_OPENGL_CORE_PROFILE : Z := 204801%Z.

(** The client-side array handed to [glBufferData]. *)
Inductive blob :=
| Floats (data : list R)
| UInts (data : list Z).

(** Which shader source string is handed to [glShaderSource]. *)
Inductive shader_text := vertexShaderSource | fragmentShaderSource.

(** One constructor per GLFW / GL entry point the program calls for its
    effect, and for the status and info-log queries of
    [createShaderProgram], of which the info-log ones are made on failure
    only.  The other calls made for their result ([glfwInit],
    [glGetUniformLocation], [glfwGetKey], ...) are made on every path; they
    take that result from [Env] or [FrameInput] and leave no entry.  The
    result of a recorded query comes from [Env] as well. *)
Inductive call :=
| glfwWindowHint (hint : GLFWhint) (value : Z)
| glfwMakeContextCurrent
| glfwTerminate
| glfwSetWindowShouldClose (value : bool)
| glfwSwapBuffers
| glfwPollEvents
| glViewport (x y width height : Z)
| glGenVertexArrays (name : Z)
| glGenBuffers (name : Z)
| glBindVertexArray (name : Z)
| glBindBuffer (target : GLenum) (name : Z)
| glBufferData (target : GLenum) (size : Z) (data : blob) (usage : GLenum)
| glVertexAttribPointer (index size : Z) (type : GLenum) (normalized : bool)
                        (stride offset : Z)
| glEnableVertexAttribArray (index : Z)
| glCreateShader (type : GLenum) (name : Z)
| glShaderSource (shader : Z) (source : shader_text)
| glCompileShader (shader : Z)
| glGetShaderiv (shader : Z) (pname : GLenum)
| glGetShaderInfoLog (shader : Z)
| glGetProgramiv (program : Z) (pname : GLenum)
| glGetProgramInfoLog (program : Z)
| glCreateProgram (name : Z)
| glAttachShader (program shader : Z)
| glLinkProgram (program : Z)
| glDeleteShader (shader : Z)
| glUseProgram (program : Z)
| glGenTextures (name : Z)
| glBindTexture (target : GLenum) (name : Z)
| glTexParameteri (target pname param : GLenum)
| glTexImage2D (width height : Z)
| glGenerateMipmap (target : GLenum)
| stbi_image_free
| glUniformMatrix4fv (location : Z) (value : mat4)
| glUniform1i (location : Z) (value : Z)
| glClear
| glEnable (cap : GLenum)
| glDrawElements (mode : GLenum) (count : Z) (type : GLenum) (offset : Z)
| glDeleteVertexArrays (name : Z)
| glDeleteBuffers (name : Z)
| glDeleteProgram (program : Z).

Record World := mkWorld {
  stderr : list string;       (* lines written to std::cerr, oldest first *)
  trace : list call;          (* API calls made, oldest first *)
  should_close : bool         (* the window's should-close flag *)
}.

Definition initial_world : World := mkWorld [] [] false.

Definition EXIT_FAILURE : Z := 1%Z.

(** A computation either returns a value or has called [exit]. *)
Inductive outcome (A : Type) :=
| Ret (a : A) (w : World)
| Exited (code : Z) (w : World).
Arguments Ret {A} a w.
Arguments Exited {A} code w.

Definition M (A : Type) : Type := World -> outcome A.

Definition ret {A} (a : A) : M A := fun w => Ret a w.

Definition bind {A B} (m : M A) (f : A -> M B) : M B :=
  fun w => match m w with
           | Ret a w' => f a w'
           | Exited code w' => Exited code w'
           end.

Declare Scope prog_scope.
Delimit Scope prog_scope with prog.
Notation "x <- m ;; k" := (bind m (fun x => k))
  (at level 61, m at next level, right associativity) : prog_scope.
Notation "m ;; k" := (bind m (fun _ => k))
  (at level 61, right associativity) : prog_scope.
Open Scope prog_scope.

Definition world_of {A} (o : outcome A) : World :=
  match o with Ret _ w => w | Exited _ w => w end.

(** [std::cerr << line << std::endl]. *)
Definition cerr (line : string) : M unit :=
  fun w => Ret tt (mkWorld (stderr w ++ [line]) (trace w) (should_close w)).

Definition do_call (c : call) : M unit :=
  fun w => Ret tt (mkWorld (stderr w) (trace w ++ [c]) (should_close w)).

Definition exit {A} (code : Z) : M A := fun w => Exited code w.

Definition glfwWindowShouldClose : M bool := fun w => Ret (should_close w) w.

Definition set_should_close (value : bool) : M unit :=
  fun w => Ret tt (mkWorld (stderr w)
                           (trace w ++ [glfwSetWindowShouldClose value]) value).

(** [glfwPollEvents]: no callback is installed; a close request received
    from the window system raises the flag, nothing lowers it. *)
Definition poll_events (close_requested : bool) : M unit :=
  fun w => Ret tt (mkWorld (stderr w) (trace w ++ [glfwPollEvents])
                           (should_close w || close_requested)).

Definition when (b : bool) (m : M unit) : M unit := if b then m else ret tt.

(** What the start-up code reads from GLFW, GLAD, the GL driver and the
    image loader. *)
Record Env := mkEnv {
  glfwInit_ok : bool;
  glfwCreateWindow_ok : bool;           (* the returned pointer is non-null *)
  gladLoadGLLoader_ok : bool;
  framebuffer_width : Z;
  framebuffer_height : Z;
  new_VAO : Z;
  new_VBO : Z;
  new_EBO : Z;
  new_vertexShader : Z;
  vertex_success : bool;                (* GL_COMPILE_STATUS *)
  vertex_infoLog : string;
  new_fragmentShader : Z;
  fragment_success : bool;
  fragment_infoLog : string;
  new_program : Z;
  link_success : bool;                  (* GL_LINK_STATUS *)
  link_infoLog : string;
  new_texture : Z;
  stbi_load : option (Z * Z * Z);       (* width, height, nrChannels; None = NULL *)
  loc_model : Z;
  loc_view : Z;
  loc_projection : Z;
  loc_lightOn : Z
}.

(** What one loop iteration reads: the clock (twice), the key states as
    [glfwGetKey(window, k) == GLFW_PRESS], and whether the window system
    delivers a close request to [glfwPollEvents]. *)
Record FrameInput := mkFrame {
  time_top : R;
  pressed : Z -> bool;
  time_model : R;
  close_requested : bool
}.

Definition newline : string := String (Ascii.ascii_of_nat 10) EmptyString.

(** ** [createShaderProgram] *)

Definition createShaderProgram (env : Env) : M Z :=
  (* Vertex shader *)
  let vertexShader := new_vertexShader env in
  do_call (glCreateShader GL_VERTEX_SHADER vertexShader) ;;
  do_call (glShaderSource vertexShader vertexShaderSource) ;;
  do_call (glCompileShader vertexShader) ;;
  (* Check for vertex shader compilation errors *)
  do_call (glGetShaderiv vertexShader GL_COMPILE_STATUS) ;;
  when (negb (vertex_success env))
       (do_call (glGetShaderInfoLog vertexShader) ;;
        cerr ("ERROR::SHADER::VERTEX::COMPILATION_FAILED" ++ newline
              ++ vertex_infoLog env)) ;;
  (* Fragment shader *)
  let fragmentShader := new_fragmentShader env in
  do_call (glCreateShader GL_FRAGMENT_SHADER fragmentShader) ;;
  do_call (glShaderSource fragmentShader fragmentShaderSource) ;;
  do_call (glCompileShader fragmentShader) ;;
  (* Check for fragment shader compilation errors *)
  do_call (glGetShaderiv fragmentShader GL_COMPILE_STATUS) ;;
  when (negb (fragment_success env))
       (do_call (glGetShaderInfoLog fragmentShader) ;;
        cerr ("ERROR::SHADER::FRAGMENT::COMPILATION_FAILED" ++ newline
              ++ fragment_infoLog env)) ;;
  (* Link shaders *)
  let shaderProgram := new_program env in
  do_call (glCreateProgram shaderProgram) ;;
  do_call (glAttachShader shaderProgram vertexShader) ;;
  do_call (glAttachShader shaderProgram fragmentShader) ;;
  do_call (glLinkProgram shaderProgram) ;;
  (* Check for linking errors *)
  do_call (glGetProgramiv shaderProgram GL_LINK_STATUS) ;;
  when (negb (link_success env))
       (do_call (glGetProgramInfoLog shaderProgram) ;;
        cerr ("ERROR::SHADER::PROGRAM::LINKING_FAILED" ++ newline
              ++ link_infoLog env)) ;;
  do_call (glDeleteShader vertexShader) ;;
  do_call (glDeleteShader fragmentShader) ;;
  ret shaderProgram.

(** ** [initGLFWandGLAD] *)

Definition initGLFWandGLAD (env : Env) : M unit :=
  (if negb (glfwInit_ok env)
   then cerr "Failed to initialize GLFW" ;; exit EXIT_FAILURE
   else ret tt) ;;
  do_call (glfwWindowHint GLFW_CONTEXT_VERSION_MAJOR 3) ;;
  do_call (glfwWindowHint GLFW_CONTEXT_VERSION_MINOR 3) ;;
  do_call (glfwWindowHint GLFW_OPENGL_PROFILE GLFW_OPENGL_CORE_PROFILE) ;;
  (if negb (glfwCreateWindow_ok env)
   then cerr "Failed to create GLFW window" ;;
        do_call glfwTerminate ;;
        exit EXIT_FAILURE
   else ret tt) ;;
  do_call glfwMakeContextCurrent ;;
  (if negb (gladLoadGLLoader_ok env)
   then cerr "Failed to initialize GLAD" ;; exit EXIT_FAILURE
   else ret tt) ;;
  do_call (glViewport 0 0 (framebuffer_width env) (framebuffer_height env)).

(** ** The geometry of [main] *)

Definition vertices : list R := [
  (* Surface *)
  -5; 0; -5;  0; 1; 0;  0; 0;
   5; 0; -5;  0; 1; 0;  0; 0;
   5; 0;  5;  0; 1; 0;  0; 0;
  -5; 0;  5;  0; 1; 0;  0; 0;
  (* Building 1 *)
  -1; 0; -1;  1; 1; 1;  0; 1;
  -1; 2; -1;  1; 1; 1;  0; 0;
   1; 2; -1;  1; 1; 1;  1; 0;
   1; 0; -1;  1; 1; 1;  1; 1;
  -1; 0;  1;  1; 1; 1;  0; 1;
  -1; 2;  1;  1; 1; 1;  0; 0;
   1; 2;  1;  1; 1; 1;  1; 0;
   1; 0;  1;  1; 1; 1;  1; 1;
  (* Building 2 *)
   2; 0;  2;  1; 1; 1;  0; 1;
   2; 3;  2;  1; 1; 1;  0; 0;
   4; 3;  2;  1; 1; 1;  1; 0;
   4; 0;  2;  1; 1; 1;  1; 1;
   2; 0;  4;  1; 1; 1;  0; 1;
   2; 3;  4;  1; 1; 1;  0; 0;
   4; 3;  4;  1; 1; 1;  1; 0;
   4; 0;  4;  1; 1; 1;  1; 1
].

Definition indices : list Z := [
  (* Surface *)
  0; 1; 2; 2; 3; 0;
  (* Building 1 *)
  4; 5; 6; 6; 7; 4;
  4; 5; 9; 9; 8; 4;
  5; 6; 10; 10; 9; 5;
  6; 7; 11; 11; 10; 6;
  7; 4; 8; 8; 11; 7;
  8; 9; 10; 10; 11; 8;
  (* Building 2 *)
  12; 13; 14; 14; 15; 12;
  12; 13; 17; 17; 16; 12;
  13; 14; 18; 18; 17; 13;
  14; 15; 19; 19; 18; 14;
  15; 12; 16; 16; 19; 15;
  16; 17; 18; 18; 19; 16
]%Z.

(** [sizeof] of an array of 4-byte elements ([GLfloat], [GLuint]). *)
Definition sizeof_elem : Z := 4%Z.
Definition sizeof_array {A} (a : list A) : Z :=
  (sizeof_elem * Z.of_nat (List.length a))%Z.

(** Floats per vertex: the stride of every attribute is [8 * sizeof(float)]. *)
Definition floats_per_vertex : Z := 8%Z.

(** ** The local variables of [main] that live across the loop *)

Record Locals := mkLocals {
  l_vertices : list R;
  l_indices : list Z;
  VAO : Z;
  VBO : Z;
  EBO : Z;
  shaderProgram : Z;
  texture : Z;
  modelLoc : Z;
  viewLoc : Z;
  projLoc : Z;
  lightOnLoc : Z;
  lightOn : bool;
  camera : Camera;
  deltaTime : R;
  lastFrame : R
}.

Definition set_times (dt lf : R) (s : Locals) : Locals :=
  mkLocals (l_vertices s) (l_indices s) (VAO s) (VBO s) (EBO s)
           (shaderProgram s) (texture s) (modelLoc s) (viewLoc s) (projLoc s)
           (lightOnLoc s) (lightOn s) (camera s) dt lf.

Definition set_camera (c : Camera) (s : Locals) : Locals :=
  mkLocals (l_vertices s) (l_indices s) (VAO s) (VBO s) (EBO s)
           (shaderProgram s) (texture s) (modelLoc s) (viewLoc s) (projLoc s)
           (lightOnLoc s) (lightOn s) c (deltaTime s) (lastFrame s).

Definition set_lightOn (b : bool) (s : Locals) : Locals :=
  mkLocals (l_vertices s) (l_indices s) (VAO s) (VBO s) (EBO s)
           (shaderProgram s) (texture s) (modelLoc s) (viewLoc s) (projLoc s)
           (lightOnLoc s) b (camera s) (deltaTime s) (lastFrame s).

(** ** [main], up to the loop *)

(** Buffer creation and upload, and the three vertex attributes. *)
Definition upload_geometry (env : Env) : M unit :=
  do_call (glGenVertexArrays (new_VAO env)) ;;
  do_call (glGenBuffers (new_VBO env)) ;;
  do_call (glGenBuffers (new_EBO env)) ;;
  do_call (glBindVertexArray (new_VAO env)) ;;
  do_call (glBindBuffer GL_ARRAY_BUFFER (new_VBO env)) ;;
  do_call (glBufferData GL_ARRAY_BUFFER (sizeof_array vertices)
                        (Floats vertices) GL_STATIC_DRAW) ;;
  do_call (glBindBuffer GL_ELEMENT_ARRAY_BUFFER (new_EBO env)) ;;
  do_call (glBufferData GL_ELEMENT_ARRAY_BUFFER (sizeof_array indices)
                        (UInts indices) GL_STATIC_DRAW) ;;
  do_call (glVertexAttribPointer 0 3 GL_FLOAT false
                                 (floats_per_vertex * sizeof_elem) 0) ;;
  do_call (glEnableVertexAttribArray 0) ;;
  do_call (glVertexAttribPointer 1 3 GL_FLOAT false
                                 (floats_per_vertex * sizeof_elem)
                                 (3 * sizeof_elem)) ;;
  do_call (glEnableVertexAttribArray 1) ;;
  do_call (glVertexAttribPointer 2 2 GL_FLOAT false
                                 (floats_per_vertex * sizeof_elem)
                                 (6 * sizeof_elem)) ;;
  do_call (glEnableVertexAttribArray 2).

Definition load_texture (env : Env) : M unit :=
  do_call (glGenTextures (new_texture env)) ;;
  do_call (glBindTexture GL_TEXTURE_2D (new_texture env)) ;;
  do_call (glTexParameteri GL_TEXTURE_2D GL_TEXTURE_WRAP_S GL_REPEAT) ;;
  do_call (glTexParameteri GL_TEXTURE_2D GL_TEXTURE_WRAP_T GL_REPEAT) ;;
  do_call (glTexParameteri GL_TEXTURE_2D GL_TEXTURE_MIN_FILTER GL_LINEAR) ;;
  do_call (glTexParameteri GL_TEXTURE_2D GL_TEXTURE_MAG_FILTER GL_LINEAR) ;;
  match stbi_load env with
  | Some (width, height, _) =>
      do_call (glTexImage2D width height) ;;
      do_call (glGenerateMipmap GL_TEXTURE_2D)
  | None => cerr "Failed to load texture"
  end ;;
  do_call stbi_image_free.

(** Everything [main] does before the [while]: the value returned is the
    set of locals the loop starts from. *)
Definition startup (env : Env) : M Locals :=
  initGLFWandGLAD env ;;
  upload_geometry env ;;
  shaderProgram <- createShaderProgram env ;;
  do_call (glUseProgram shaderProgram) ;;
  load_texture env ;;
  let projection := perspective (radians 45) (800 / 600) 0.1 100 in
  do_call (glUniformMatrix4fv (loc_projection env) projection) ;;
  let lightOn := true in
  do_call (glUniform1i (loc_lightOn env) (Z.b2z lightOn)) ;;
  let camera := Camera_new (mkvec3 0 0 5) (mkvec3 0 1 0) (-90) 0 in
  ret (mkLocals vertices indices (new_VAO env) (new_VBO env) (new_EBO env)
                shaderProgram (new_texture env)
                (loc_model env) (loc_view env) (loc_projection env)
                (loc_lightOn env) lightOn camera 0 0).

(** ** The loop body *)

(** [if (glfwGetKey(window, k) == GLFW_PRESS) camera.ProcessKeyboard(k, dt);] *)
Definition move_if_pressed (f : FrameInput) (k : Z) (dt : R) (c : Camera) : Camera :=
  if pressed f k then ProcessKeyboard k dt c else c.

Definition camera_controls (f : FrameInput) (dt : R) (c : Camera) : Camera :=
  let c := move_if_pressed f GLFW_KEY_W dt c in
  let c := move_if_pressed f GLFW_KEY_S dt c in
  let c := move_if_pressed f GLFW_KEY_A dt c in
  let c := move_if_pressed f GLFW_KEY_D dt c in
  let c := move_if_pressed f GLFW_KEY_Q dt c in
  let c := move_if_pressed f GLFW_KEY_E dt c in
  c.

(** The model matrix of a frame, from the second clock reading. *)
Definition model_matrix (t : R) : mat4 :=
  rotate (mat4_diag 1) (t * radians 50) (mkvec3 0 1 0).

(** [sizeof(indices) / sizeof(indices[0])]. *)
Definition draw_count (s : Locals) : Z :=
  (sizeof_array (l_indices s) / sizeof_elem)%Z.

Definition iteration (f : FrameInput) (s : Locals) : M Locals :=
  (* Calculate delta time *)
  let currentFrame := time_top f in
  let s := set_times (currentFrame - lastFrame s) currentFrame s in
  (* Input *)
  when (pressed f GLFW_KEY_ESCAPE) (set_should_close true) ;;
  (* Camera controls *)
  let s := set_camera (camera_controls f (deltaTime s) (camera s)) s in
  (* Toggle light *)
  s <- (if pressed f GLFW_KEY_L
        then let s := set_lightOn (negb (lightOn s)) s in
             do_call (glUniform1i (lightOnLoc s) (Z.b2z (lightOn s))) ;;
             ret s
        else ret s) ;;
  (* Render *)
  do_call glClear ;;
  do_call (glEnable GL_DEPTH_TEST) ;;
  do_call (glUniformMatrix4fv (viewLoc s) (GetViewMatrix (camera s))) ;;
  do_call (glUniformMatrix4fv (modelLoc s) (model_matrix (time_model f))) ;;
  do_call (glBindTexture GL_TEXTURE_2D (texture s)) ;;
  do_call (glBindVertexArray (VAO s)) ;;
  do_call (glDrawElements GL_TRIANGLES (draw_count s) GL_UNSIGNED_INT 0) ;;
  (* Swap buffers and poll IO events *)
  do_call glfwSwapBuffers ;;
  poll_events (close_requested f) ;;
  ret s.

(** [while (!glfwWindowShouldClose(window)) { ... }] driven by the inputs of
    the successive iterations.  [Some s]: the guard failed and the loop was
    left with locals [s].  [None]: the inputs ran out with the guard still
    true, the loop is still running. *)
Fixpoint main_loop (frames : list FrameInput) (s : Locals) : M (option Locals) :=
  closing <- glfwWindowShouldClose ;;
  if closing then ret (Some s)
  else match frames with
       | [] => ret None
       | f :: frames' => s' <- iteration f s ;; main_loop frames' s'
       end.

Definition cleanup (s : Locals) : M unit :=
  do_call (glDeleteVertexArrays (VAO s)) ;;
  do_call (glDeleteBuffers (VBO s)) ;;
  do_call (glDeleteBuffers (EBO s)) ;;
  do_call (glDeleteProgram (shaderProgram s)) ;;
  do_call glfwTerminate.

(** [main]: [Ret (Some 0) w] is a normal return with status 0,
    [Ret None w] a run whose loop has not ended within [frames],
    [Exited code w] a call of [exit(code)]. *)
Definition main (env : Env) (frames : list FrameInput) : M (option Z) :=
  s <- startup env ;;
  r <- main_loop frames s ;;
  match r with
  | Some s' => cleanup s' ;; ret (Some 0%Z)
  | None => ret None
  end.

(** ** Buffer objects as the GL holds them

    The part of the GL state the geometry lives in: which buffer name is
    bound to each of the two targets, and the data store of each name. *)

Record Buffers := mkBuffers {
  array_binding : Z;
  element_binding : Z;
  store : Z -> option blob
}.

Definition no_buffers : Buffers := mkBuffers 0 0 (fun _ => None).

Definition store_set (name : Z) (v : option blob) (st : Z -> option blob)
  : Z -> option blob :=
  fun n => if Z.eqb n name then v else st n.

Definition gl_exec (b : Buffers) (c : call) : Buffers :=
  match c with
  | glBindBuffer GL_ARRAY_BUFFER name =>
      mkBuffers name (element_binding b) (store b)
  | glBindBuffer GL_ELEMENT_ARRAY_BUFFER name =>
      mkBuffers (array_binding b) name (store b)
  | glBufferData GL_ARRAY_BUFFER _ data _ =>
      mkBuffers (array_binding b) (element_binding b)
                (store_set (array_binding b) (Some data) (store b))
  | glBufferData GL_ELEMENT_ARRAY_BUFFER _ data _ =>
      mkBuffers (array_binding b) (element_binding b)
                (store_set (element_binding b) (Some data) (store b))
  | glDeleteBuffers name =>
      mkBuffers (array_binding b) (element_binding b)
                (store_set name None (store b))
  | _ => b
  end.

Definition gl_run (b : Buffers) (cs : list call) : Buffers :=
  fold_left gl_exec cs b.

Definition is_upload (target : GLenum) (c : call) : bool :=
  match c, target with
  | glBufferData GL_ARRAY_BUFFER _ _ _, GL_ARRAY_BUFFER => true
  | glBufferData GL_ELEMENT_ARRAY_BUFFER _ _ _, GL_ELEMENT_ARRAY_BUFFER => true
  | _, _ => false
  end.

Definition count_calls (p : call -> bool) (cs : list call) : nat :=
  List.length (filter p cs).

(** The camera and matrix code is unfolded on demand only. *)
Arguments ProcessKeyboard : simpl never.
Arguments camera_controls : simpl never.
Arguments updateCameraVectors : simpl never.
Arguments Camera_new : simpl never.
Arguments GetViewMatrix : simpl never.
Arguments model_matrix : simpl never.
Arguments rotate : simpl never.
Arguments lookAt : simpl never.
Arguments perspective : simpl never.
Arguments radians : simpl never.

(** ** Vocabulary for the properties *)

(** All fields of a camera except [Position]. *)
Definition same_orientation (c c' : Camera) : Prop :=
  Yaw c' = Yaw c /\ Pitch c' = Pitch c /\
  Front c' = Front c /\ Right c' = Right c /\ Up c' = Up c /\
  WorldUp c' = WorldUp c /\ MovementSpeed c' = MovementSpeed c /\
  MouseSensitivity c' = MouseSensitivity c /\ Zoom c' = Zoom c.

(** The calls one iteration makes and the locals it leaves, read off a run
    of [iteration] in the empty world. *)
Definition frame_calls (f : FrameInput) (s : Locals) : list call :=
  trace (world_of (iteration f s initial_world)).

Definition frame_locals (f : FrameInput) (s : Locals) : Locals :=
  match iteration f s initial_world with
  | Ret s' _ => s'
  | Exited _ _ => s
  end.

(** The calls and locals of the start-up code, read off the same way. *)
Definition startup_calls (env : Env) : list call :=
  trace (world_of (startup env initial_world)).

Definition context_ok (env : Env) : bool :=
  glfwInit_ok env && glfwCreateWindow_ok env && gladLoadGLLoader_ok env.

(** The lines a run with a working context writes for its shader and
    texture failures, in program order. *)
Definition recoverable_messages (env : Env) : list string :=
  (if vertex_success env then []
   else ["ERROR::SHADER::VERTEX::COMPILATION_FAILED" ++ newline
         ++ vertex_infoLog env]%string)
  ++ (if fragment_success env then []
      else ["ERROR::SHADER::FRAGMENT::COMPILATION_FAILED" ++ newline
            ++ fragment_infoLog env]%string)
  ++ (if link_success env then []
      else ["ERROR::SHADER::PROGRAM::LINKING_FAILED" ++ newline
            ++ link_infoLog env]%string)
  ++ (match stbi_load env with
      | Some _ => []
      | None => ["Failed to load texture"%string]
      end).

Definition hint_calls : list call :=
  [glfwWindowHint GLFW_CONTEXT_VERSION_MAJOR 3;
   glfwWindowHint GLFW_CONTEXT_VERSION_MINOR 3;
   glfwWindowHint GLFW_OPENGL_PROFILE GLFW_OPENGL_CORE_PROFILE].

Definition cleanup_calls (s : Locals) : list call :=
  [glDeleteVertexArrays (VAO s); glDeleteBuffers (VBO s);
   glDeleteBuffers (EBO s); glDeleteProgram (shaderProgram s); glfwTerminate].

(** Neither Escape nor a close request from the window system. *)
Definition no_quit (f : FrameInput) : Prop :=
  pressed f GLFW_KEY_ESCAPE = false /\ close_requested f = false.

Definition is_swap (c : call) : bool :=
  match c with glfwSwapBuffers => true | _ => false end.

(** A call that binds a buffer, or creates, replaces or destroys the data
    store of one. *)
Definition is_buffer_call (c : call) : bool :=
  match c with
  | glBindBuffer _ _ | glBufferData _ _ _ _ | glDeleteBuffers _ => true
  | _ => false
  end.

(** A draw call of the whole index array as triangles. *)
Definition draws_all_indices (c : call) : Prop :=
  match c with
  | glDrawElements mode count type offset =>
      mode = GL_TRIANGLES /\ count = 78%Z /\ type = GL_UNSIGNED_INT /\
      offset = 0%Z
  | _ => True
  end.

(** ** Sample inputs *)

(** An environment in which nothing fails. *)
Definition env_ok : Env :=
  mkEnv true true true 800 600 1 1 2 1 true EmptyString 2 true EmptyString
        3 true EmptyString 1 (Some (512, 512, 3)%Z) 0 1 2 3.

Definition set_context (init window glad : bool) (e : Env) : Env :=
  mkEnv init window glad (framebuffer_width e) (framebuffer_height e)
        (new_VAO e) (new_VBO e) (new_EBO e)
        (new_vertexShader e) (vertex_success e) (vertex_infoLog e)
        (new_fragmentShader e) (fragment_success e) (fragment_infoLog e)
        (new_program e) (link_success e) (link_infoLog e)
        (new_texture e) (stbi_load e)
        (loc_model e) (loc_view e) (loc_projection e) (loc_lightOn e).

(** An environment with a working context in which both shaders fail to
    compile, the program fails to link and the image is missing. *)
Definition env_all_recoverable : Env :=
  mkEnv true true true 800 600 1 1 2 1 false "bad vs" 2 false "bad fs"
        3 false "bad link" 1 None 0 1 2 3.

(** A frame at clock reading [t] in which exactly the keys of [ks] are
    down and no close request arrives. *)
Definition frame_keys (t : R) (ks : list Z) : FrameInput :=
  mkFrame t (fun k => existsb (Z.eqb k) ks) t false.

(** Locals as the start-up code leaves them under [env_ok], with the
    camera of [main]. *)
Definition sample_locals : Locals :=
  mkLocals vertices indices 1 1 2 3 1 0 1 2 3 true
           (Camera_new (mkvec3 0 0 5) (mkvec3 0 1 0) (-90) 0) 0 0.

(** The camera [main] constructs, before [updateCameraVectors]. *)
Definition main_camera_fields : Camera :=
  mkCamera (mkvec3 0 0 5) (mkvec3 0 0 (-1)) vzero vzero (mkvec3 0 1 0)
           (-90) 0 2.5 0.1 45.

(** ** Vocabulary for whole runs of the loop *)

(** The frame raises the should-close flag: Escape, or a close request. *)
Definition quits (f : FrameInput) : bool :=
  pressed f GLFW_KEY_ESCAPE || close_requested f.

(** The frames up to and including the first one that quits. *)
Fixpoint played (frames : list FrameInput) : list FrameInput :=
  match frames with
  | [] => []
  | f :: frames' => f :: (if quits f then [] else played frames')
  end.

(** The locals after the iterations of [frames], and the calls they make,
    one iteration after the other. *)
Fixpoint run_frames (frames : list FrameInput) (s : Locals) : Locals :=
  match frames with
  | [] => s
  | f :: frames' => run_frames frames' (frame_locals f s)
  end.

Fixpoint run_calls (frames : list FrameInput) (s : Locals) : list call :=
  match frames with
  | [] => []
  | f :: frames' => frame_calls f s ++ run_calls frames' (frame_locals f s)
  end.

(** The locals [main] enters the loop with. *)
Definition initial_locals (env : Env) : Locals :=
  mkLocals vertices indices (new_VAO env) (new_VBO env) (new_EBO env)
           (new_program env) (new_texture env)
           (loc_model env) (loc_view env) (loc_projection env)
           (loc_lightOn env) true
           (Camera_new (mkvec3 0 0 5) (mkvec3 0 1 0) (-90) 0) 0 0.

(** The clock reading of the last of [frames], [t0] if there is none. *)
Definition last_time (frames : list FrameInput) (t0 : R) : R :=
  fold_left (fun _ f => time_top f) frames t0.

(** None of the six movement keys is down. *)
Definition no_movement (f : FrameInput) : Prop :=
  pressed f GLFW_KEY_W = false /\ pressed f GLFW_KEY_S = false /\
  pressed f GLFW_KEY_A = false /\ pressed f GLFW_KEY_D = false /\
  pressed f GLFW_KEY_Q = false /\ pressed f GLFW_KEY_E = false.

Definition is_movement_key (k : Z) : bool :=
  Z.eqb k GLFW_KEY_W || Z.eqb k GLFW_KEY_S || Z.eqb k GLFW_KEY_A
  || Z.eqb k GLFW_KEY_D || Z.eqb k GLFW_KEY_Q || Z.eqb k GLFW_KEY_E.

(** How many of [frames] report L pressed. *)
Definition count_L (frames : list FrameInput) : nat :=
  List.length (filter (fun f => pressed f GLFW_KEY_L) frames).

Definition is_draw (c : call) : bool :=
  match c with glDrawElements _ _ _ _ => true | _ => false end.

Definition is_poll (c : call) : bool :=
  match c with glfwPollEvents => true | _ => false end.

Definition is_uniform (c : call) : bool :=
  match c with
  | glUniform1i _ _ | glUniformMatrix4fv _ _ => true
  | _ => false
  end.

Definition is_texture_upload (c : call) : bool :=
  match c with
  | glTexImage2D _ _ | glGenerateMipmap _ => true
  | _ => false
  end.

(** The bytes an attribute set up by [glVertexAttribPointer] reads for the
    vertices numbered by [idx] lie inside a buffer of [buffer_size] bytes. *)
Definition fetch_in_bounds (buffer_size : Z) (idx : list Z) (c : call) : Prop :=
  match c with
  | glVertexAttribPointer _ size _ _ stride offset =>
      Forall (fun i => (0 <= offset + i * stride /\
                        offset + i * stride + size * sizeof_elem
                        <= buffer_size)%Z) idx
  | _ => True
  end.


Definition is_info_log (c : call) : bool :=
  match c with
  | glGetShaderInfoLog _ | glGetProgramInfoLog _ => true
  | _ => false
  end.

(** The calls of [cs] that are not info-log queries. *)
Definition without_info_log (cs : list call) : list call :=
  filter (fun c => negb (is_info_log c)) cs.

(** The same environment with other compile and link results. *)
Definition set_shader_status (vs fs ln : bool) (lv lf ll : string) (e : Env)
  : Env :=
  mkEnv (glfwInit_ok e) (glfwCreateWindow_ok e) (gladLoadGLLoader_ok e)
        (framebuffer_width e) (framebuffer_height e)
        (new_VAO e) (new_VBO e) (new_EBO e)
        (new_vertexShader e) vs lv
        (new_fragmentShader e) fs lf
        (new_program e) ln ll
        (new_texture e) (stbi_load e)
        (loc_model e) (loc_view e) (loc_projection e) (loc_lightOn e).

(** A frame at clock reading [t] with the keys of [ks] down in which the
    window system delivers a close request. *)
Definition frame_close (t : R) (ks : list Z) : FrameInput :=
  mkFrame t (fun k => existsb (Z.eqb k) ks) t true.

Definition is_attrib_pointer (c : call) : bool :=
  match c with glVertexAttribPointer _ _ _ _ _ _ => true | _ => false end.

Definition is_use_program (c : call) : bool :=
  match c with glUseProgram _ => true | _ => false end.

Definition is_image_free (c : call) : bool :=
  match c with stbi_image_free => true | _ => false end.

(** The same frame with Escape reported up. *)
Definition without_escape (f : FrameInput) : FrameInput :=
  mkFrame (time_top f)
          (fun k => if Z.eqb k GLFW_KEY_ESCAPE then false else pressed f k)
          (time_model f) (close_requested f).

(** How many of three results are failures. *)
Definition failures (a b c : bool) : nat :=
  ((if a then 0 else 1) + (if b then 0 else 1) + (if c then 0 else 1))%nat.

(** ** The camera update in binary32

    [glm::cross], [glm::normalize] and [updateCameraVectors] on IEEE-754
    binary32 values, with the Standard Library's executable specification
    of the format ([SpecFloat]: 24 bits of precision, round to nearest
    even, subnormals, infinities and NaN). *)

Module binary32.

Definition prec : Z := 24%Z.
Definition emax : Z := 128%Z.
Definition float32 : Type := spec_float.

(** The binary32 value nearest to [m * 2^e]. *)
Definition of_Z (m e : Z) : float32 := binary_normalize prec emax m e false.

Definition zero : float32 := of_Z 0 0.
Definition one : float32 := of_Z 1 0.

Definition fadd : float32 -> float32 -> float32 := SFadd prec emax.
Definition fsub : float32 -> float32 -> float32 := SFsub prec emax.
Definition fmul : float32 -> float32 -> float32 := SFmul prec emax.
Definition fdiv : float32 -> float32 -> float32 := SFdiv prec emax.
Definition fsqrt : float32 -> float32 := SFsqrt prec emax.

(** The comparison [==] of C: a NaN differs from everything, [-0 == +0]. *)
Definition feqb : float32 -> float32 -> bool := SFeqb.

Record vec3 := mkvec3 { vx : float32; vy : float32; vz : float32 }.

Definition vscale (v : vec3) (s : float32) : vec3 :=
  mkvec3 (fmul (vx v) s) (fmul (vy v) s) (fmul (vz v) s).

(** [glm::dot]: the three products, summed left to right. *)
Definition dot (a b : vec3) : float32 :=
  fadd (fadd (fmul (vx a) (vx b)) (fmul (vy a) (vy b))) (fmul (vz a) (vz b)).

Definition cross (a b : vec3) : vec3 :=
  mkvec3 (fsub (fmul (vy a) (vz b)) (fmul (vy b) (vz a)))
         (fsub (fmul (vz a) (vx b)) (fmul (vz b) (vx a)))
         (fsub (fmul (vx a) (vy b)) (fmul (vx b) (vy a))).

Definition length (v : vec3) : float32 := fsqrt (dot v v).

Definition inversesqrt (a : float32) : float32 := fdiv one (fsqrt a).

Definition normalize (v : vec3) : vec3 := vscale v (inversesqrt (dot v v)).

(** [glm::radians]: the argument times the constant
    [0.01745329251994329576923690768489], which is [9370165 * 2^-29] as a
    binary32 value. *)
Definition radians (degrees : float32) : float32 :=
  fmul degrees (of_Z 9370165 (-29)).

(** [cos] and [sin] belong to the C library, which is not part of the
    repository and has no model here.  Only their values at [+0] and [-0]
    are given: they are exact and fixed by the C standard (Annex F), in
    [float] and in [double] alike.  At any other argument the model has no
    value. *)
Definition cosf (x : float32) : option float32 :=
  match x with
  | S754_zero _ => Some one
  | _ => None
  end.

Definition sinf (x : float32) : option float32 :=
  match x with
  | S754_zero s => Some (S754_zero s)
  | _ => None
  end.

Record Camera := mkCamera {
  Position : vec3;
  Front : vec3;
  Up : vec3;
  Right : vec3;
  WorldUp : vec3;
  Yaw : float32;
  Pitch : float32;
  MovementSpeed : float32;
  MouseSensitivity : float32;
  Zoom : float32
}.

(** The local [front] of [updateCameraVectors], where the model has the
    four trigonometric values. *)
Definition front_of (yaw pitch : float32) : option vec3 :=
  match cosf (radians yaw), cosf (radians pitch),
        sinf (radians pitch), sinf (radians yaw) with
  | Some cy, Some cp, Some sp, Some sy =>
      Some (mkvec3 (fmul cy cp) sp (fmul sy cp))
  | _, _, _, _ => None
  end.

Definition updateCameraVectors (c : Camera) : option Camera :=
  match front_of (Yaw c) (Pitch c) with
  | Some front =>
      let Front' := normalize front in
      let Right' := normalize (cross Front' (WorldUp c)) in
      let Up' := normalize (cross Right' Front') in
      Some (mkCamera (Position c) Front' Up' Right' (WorldUp c)
                     (Yaw c) (Pitch c) (MovementSpeed c)
                     (MouseSensitivity c) (Zoom c))
  | None => None
  end.

(** The constructor; [Up] and [Right] are overwritten before being read. *)
Definition Camera_new (position up : vec3) (yaw pitch : float32)
  : option Camera :=
  updateCameraVectors
    (mkCamera position (mkvec3 zero zero (SFopp one))
              (mkvec3 zero zero zero) (mkvec3 zero zero zero) up
              yaw pitch (of_Z 5 (-1)) (of_Z 13421773 (-27)) (of_Z 45 0)).


Definition unit_length (v : vec3) : bool := feqb (length v) one.

Definition orthogonal (a b : vec3) : bool := feqb (dot a b) zero.

Definition orthonormal_basis (c : Camera) : bool :=
  unit_length (Front c) && unit_length (Right c) && unit_length (Up c)
  && orthogonal (Front c) (Right c) && orthogonal (Front c) (Up c)
  && orthogonal (Right c) (Up c).


Definition eye : vec3 := mkvec3 zero zero (of_Z 5 0).

End binary32.

(** * Properties *)

(** ** Vector algebra behind the camera basis *)

Section VectorFacts.

















End VectorFacts.

(** [updateCameraVectors] writes [Front], [Right] and [Up] from [Yaw],
    [Pitch] and [WorldUp] alone: the old basis is not read. *)
Lemma updateCameraVectors_ignores_basis (c : Camera) (f u r : vec3) :
  updateCameraVectors
    (mkCamera (Position c) f u r (WorldUp c) (Yaw c) (Pitch c)
              (MovementSpeed c) (MouseSensitivity c) (Zoom c))
  = updateCameraVectors c.
Proof. reflexivity. Qed.








(** ** Keyboard movement *)

(** Whatever the direction code, the result is the camera with some new
    [Position]: the codes are distinct, so at most one [if] fires. *)
Lemma ProcessKeyboard_cases (direction : Z) (dt : R) (c : Camera) :
  exists p, ProcessKeyboard direction dt c = set_Position p c.
Proof.
  unfold ProcessKeyboard.
  destruct (Z.eqb_spec direction GLFW_KEY_W) as [-> | _];
    [eexists; reflexivity |].
  destruct (Z.eqb_spec direction GLFW_KEY_S) as [-> | _];
    [eexists; reflexivity |].
  destruct (Z.eqb_spec direction GLFW_KEY_A) as [-> | _];
    [eexists; reflexivity |].
  destruct (Z.eqb_spec direction GLFW_KEY_D) as [-> | _];
    [eexists; reflexivity |].
  destruct (Z.eqb_spec direction GLFW_KEY_Q) as [-> | _];
    [eexists; reflexivity |].
  destruct (Z.eqb_spec direction GLFW_KEY_E) as [-> | _];
    [eexists; reflexivity |].
  exists (Position c). destruct c; reflexivity.
Qed.

(** C4.  With [v = MovementSpeed * dt], [ProcessKeyboard] leaves every
    field but [Position] as it was and sets [Position], component by
    component, to: [Position + Front*v] for W, [Position - Front*v] for S,
    [Position - Right*v] for A, [Position + Right*v] for D,
    [Position + Up*v] for Q and [Position - Up*v] for E.  The constructor
    sets [MovementSpeed] to 2.5. *)
Theorem ProcessKeyboard_moves (c : Camera) (dt : R) :
  let v := MovementSpeed c * dt in
  let P := Position c in
  Position (ProcessKeyboard GLFW_KEY_W dt c)
  = mkvec3 (vx P + vx (Front c) * v) (vy P + vy (Front c) * v)
           (vz P + vz (Front c) * v) /\
  Position (ProcessKeyboard GLFW_KEY_S dt c)
  = mkvec3 (vx P - vx (Front c) * v) (vy P - vy (Front c) * v)
           (vz P - vz (Front c) * v) /\
  Position (ProcessKeyboard GLFW_KEY_A dt c)
  = mkvec3 (vx P - vx (Right c) * v) (vy P - vy (Right c) * v)
           (vz P - vz (Right c) * v) /\
  Position (ProcessKeyboard GLFW_KEY_D dt c)
  = mkvec3 (vx P + vx (Right c) * v) (vy P + vy (Right c) * v)
           (vz P + vz (Right c) * v) /\
  Position (ProcessKeyboard GLFW_KEY_Q dt c)
  = mkvec3 (vx P + vx (Up c) * v) (vy P + vy (Up c) * v)
           (vz P + vz (Up c) * v) /\
  Position (ProcessKeyboard GLFW_KEY_E dt c)
  = mkvec3 (vx P - vx (Up c) * v) (vy P - vy (Up c) * v)
           (vz P - vz (Up c) * v) /\
  (forall direction, same_orientation c (ProcessKeyboard direction dt c)) /\
  (forall position up yaw pitch,
      MovementSpeed (Camera_new position up yaw pitch) = 2.5).
Proof.
  intros v P. unfold v, P.
  do 6 (split; [reflexivity |]).
  split; [| reflexivity].
  intros direction.
  destruct (ProcessKeyboard_cases direction dt c) as [p ->].
  unfold same_orientation. repeat split.
Qed.

(** C9.  For every direction code and every [deltaTime],
    [ProcessKeyboard] leaves Yaw, Pitch, Front, Right, Up, WorldUp,
    MovementSpeed, MouseSensitivity and Zoom as they were; so does the whole
    block of camera controls of a loop iteration.  The basis vectors are
    written by [updateCameraVectors] only. *)
Theorem ProcessKeyboard_frame (direction : Z) (deltaTime : R) (c : Camera) :
  same_orientation c (ProcessKeyboard direction deltaTime c) /\
  (forall f, same_orientation c (camera_controls f deltaTime c)).
Proof.
  assert (HPK : forall d dt c0, same_orientation c0 (ProcessKeyboard d dt c0)).
  { intros d dt c0. destruct (ProcessKeyboard_cases d dt c0) as [p ->].
    unfold same_orientation. repeat split. }
  split; [apply HPK |].
  intros f. unfold camera_controls, move_if_pressed.
  assert (Htrans : forall a b d, same_orientation a b -> same_orientation b d ->
                                 same_orientation a d).
  { unfold same_orientation. intros a b d Hab Hbd.
    decompose [and] Hab; decompose [and] Hbd. repeat split; congruence. }
  assert (Hrefl : forall a, same_orientation a a)
    by (unfold same_orientation; repeat split; reflexivity).
  repeat match goal with
         | |- context [if pressed f ?k then _ else _] => destruct (pressed f k)
         end;
    repeat (eapply Htrans; [| apply HPK]); apply Hrefl.
Qed.

(** ** Running the loop *)

(** Runs the monadic code: call-by-need, and only the monad's own
    operations are unfolded. *)
Ltac run_prog :=
  lazy beta iota zeta delta
    [bind when do_call cerr ret exit set_should_close poll_events
     glfwWindowShouldClose stderr trace should_close world_of negb].

(** One iteration always returns; it appends its calls to the trace, writes
    nothing to standard error, and raises the should-close flag exactly on
    Escape or on a close request. *)
Lemma iteration_runs (f : FrameInput) (s : Locals) (w : World) :
  iteration f s w
  = Ret (frame_locals f s)
        (mkWorld (stderr w) (trace w ++ frame_calls f s)
                 (should_close w || pressed f GLFW_KEY_ESCAPE
                  || close_requested f)).
Proof.
  destruct w as [err tr sc].
  unfold frame_locals, frame_calls, iteration, initial_world.
  destruct (pressed f GLFW_KEY_ESCAPE), (pressed f GLFW_KEY_L); run_prog;
    rewrite <- ?app_assoc; cbn [app];
    destruct sc, (close_requested f); reflexivity.
Qed.

Lemma frame_locals_eq (f : FrameInput) (s : Locals) :
  frame_locals f s
  = let s1 := set_times (time_top f - lastFrame s) (time_top f) s in
    let s2 := set_camera (camera_controls f (deltaTime s1) (camera s1)) s1 in
    if pressed f GLFW_KEY_L then set_lightOn (negb (lightOn s2)) s2 else s2.
Proof.
  unfold frame_locals, iteration, initial_world.
  destruct (pressed f GLFW_KEY_ESCAPE), (pressed f GLFW_KEY_L); reflexivity.
Qed.

Lemma frame_calls_eq (f : FrameInput) (s : Locals) :
  frame_calls f s
  = (if pressed f GLFW_KEY_ESCAPE then [glfwSetWindowShouldClose true] else [])
    ++ (if pressed f GLFW_KEY_L
        then [glUniform1i (lightOnLoc s) (Z.b2z (negb (lightOn s)))] else [])
    ++ [glClear; glEnable GL_DEPTH_TEST;
        glUniformMatrix4fv (viewLoc s)
                           (GetViewMatrix (camera (frame_locals f s)));
        glUniformMatrix4fv (modelLoc s) (model_matrix (time_model f));
        glBindTexture GL_TEXTURE_2D (texture s);
        glBindVertexArray (VAO s);
        glDrawElements GL_TRIANGLES (draw_count s) GL_UNSIGNED_INT 0;
        glfwSwapBuffers; glfwPollEvents].
Proof.
  rewrite frame_locals_eq.
  unfold frame_calls, iteration, initial_world.
  destruct (pressed f GLFW_KEY_ESCAPE), (pressed f GLFW_KEY_L); reflexivity.
Qed.

Lemma cleanup_runs (s : Locals) (w : World) :
  cleanup s w
  = Ret tt (mkWorld (stderr w) (trace w ++ cleanup_calls s) (should_close w)).
Proof.
  destruct w as [err tr sc]. unfold cleanup, cleanup_calls. run_prog.
  rewrite <- ?app_assoc. reflexivity.
Qed.

Lemma main_loop_closed (frames : list FrameInput) (s : Locals) (w : World) :
  should_close w = true -> main_loop frames s w = Ret (Some s) w.
Proof.
  intros Hc. destruct frames; simpl; unfold bind, glfwWindowShouldClose;
    rewrite Hc; reflexivity.
Qed.

Lemma main_loop_step (f : FrameInput) (frames : list FrameInput)
      (s : Locals) (w : World) :
  should_close w = false ->
  main_loop (f :: frames) s w
  = main_loop frames (frame_locals f s)
              (mkWorld (stderr w) (trace w ++ frame_calls f s)
                       (pressed f GLFW_KEY_ESCAPE || close_requested f)).
Proof.
  intros Hc. simpl. unfold bind at 1, glfwWindowShouldClose. rewrite Hc.
  unfold bind at 1. rewrite iteration_runs, Hc. reflexivity.
Qed.

Lemma main_loop_out_of_frames (s : Locals) (w : World) :
  should_close w = false -> main_loop [] s w = Ret None w.
Proof.
  intros Hc. simpl. unfold bind, glfwWindowShouldClose. rewrite Hc. reflexivity.
Qed.

(** An invariant [I] of the locals and a property [Q] of the calls that
    every iteration maintains hold along the whole loop; the loop always
    returns, writes nothing to standard error, and is only left with the
    should-close flag raised. *)
Section LoopInvariant.

Variable I : Locals -> Prop.
Variable Q : call -> Prop.
Hypothesis I_step : forall f s, I s -> I (frame_locals f s).
Hypothesis Q_step : forall f s, I s -> Forall Q (frame_calls f s).

Lemma main_loop_invariant (frames : list FrameInput) :
  forall (s : Locals) (w : World),
    I s ->
    exists r w' new,
      main_loop frames s w = Ret r w' /\
      trace w' = trace w ++ new /\ Forall Q new /\
      stderr w' = stderr w /\
      (forall s', r = Some s' -> I s' /\ should_close w' = true) /\
      (r = None -> should_close w' = false).
Proof.
  induction frames as [| f frames IH]; intros s w Hs.
  - destruct (should_close w) eqn:Hc.
    + exists (Some s), w, []. rewrite main_loop_closed by exact Hc.
      rewrite app_nil_r. do 4 (split; [auto |]).
      split; [| discriminate].
      intros s' Heq; injection Heq as <-; split; assumption.
    + exists None, w, []. rewrite main_loop_out_of_frames by exact Hc.
      rewrite app_nil_r. do 4 (split; [auto |]).
      split; [discriminate | auto].
  - destruct (should_close w) eqn:Hc.
    + exists (Some s), w, []. rewrite main_loop_closed by exact Hc.
      rewrite app_nil_r. do 4 (split; [auto |]).
      split; [| discriminate].
      intros s' Heq; injection Heq as <-; split; assumption.
    + rewrite main_loop_step by exact Hc.
      destruct (IH (frame_locals f s)
                   (mkWorld (stderr w) (trace w ++ frame_calls f s)
                            (pressed f GLFW_KEY_ESCAPE || close_requested f))
                   (I_step f s Hs))
        as (r & w' & new & Hrun & Htr & HQ & Herr & Hsome & Hnone).
      exists r, w', (frame_calls f s ++ new). simpl in Htr, Herr.
      rewrite Hrun, Htr, app_assoc. do 2 (split; [reflexivity |]).
      split; [apply Forall_app; split; [apply Q_step; exact Hs | exact HQ] |].
      split; [exact Herr |]. split; assumption.
Qed.

End LoopInvariant.

(** ** Start-up *)

Lemma context_ok_inv (env : Env) :
  context_ok env = true ->
  glfwInit_ok env = true /\ glfwCreateWindow_ok env = true /\
  gladLoadGLLoader_ok env = true.
Proof.
  unfold context_ok. intros H.
  apply andb_true_iff in H as [H Hglad]. apply andb_true_iff in H as [Hi Hw].
  auto.
Qed.


Lemma main_unfold (env : Env) (frames : list FrameInput)
      (s0 : Locals) (w0 : World) :
  startup env initial_world = Ret s0 w0 ->
  main env frames initial_world
  = match main_loop frames s0 w0 with
    | Ret (Some s') w1 =>
        Ret (Some 0%Z)
            (mkWorld (stderr w1) (trace w1 ++ cleanup_calls s') (should_close w1))
    | Ret None w1 => Ret None w1
    | Exited code w1 => Exited code w1
    end.
Proof.
  intros Hs. unfold main. unfold bind at 1. rewrite Hs.
  unfold bind at 1. destruct (main_loop frames s0 w0) as [[s' |] w1 | code w1];
    try reflexivity.
  unfold bind. rewrite cleanup_runs. reflexivity.
Qed.

(** Unfolds the start-up code under a working context and splits on the
    four recoverable failures. *)
Ltac startup_cases env Hctx :=
  let Hi := fresh "Hi" in
  let Hw := fresh "Hw" in
  let Hg := fresh "Hg" in
  destruct (context_ok_inv env Hctx) as (Hi & Hw & Hg);
  unfold startup_calls, startup, initGLFWandGLAD, upload_geometry,
    createShaderProgram, load_texture, initial_world;
  rewrite Hi, Hw, Hg;
  destruct (vertex_success env), (fragment_success env), (link_success env),
    (stbi_load env) as [[[? ?] ?] |]; run_prog.

(** With a working context the start-up code returns: it has logged the
    recoverable failures, in order, and nothing else. *)
Lemma startup_from_empty (env : Env) :
  context_ok env = true ->
  exists s,
    startup env initial_world
    = Ret s (mkWorld (recoverable_messages env) (startup_calls env) false) /\
    l_vertices s = vertices /\ l_indices s = indices /\ lightOn s = true /\
    VAO s = new_VAO env /\ VBO s = new_VBO env /\ EBO s = new_EBO env /\
    shaderProgram s = new_program env /\ lightOnLoc s = loc_lightOn env.
Proof.
  intros Hctx. unfold recoverable_messages.
  startup_cases env Hctx;
    (eexists; split; [reflexivity | repeat split]).
Qed.

(** With a working context [main] never calls [exit]: it either returns 0
    after the loop and the clean-up, or is still in the loop when the given
    frames are used up.  Its calls are those of the start-up, then those of
    the loop (each satisfying any [Q] that every iteration's calls satisfy),
    then those of the clean-up if the loop was left. *)
Lemma main_runs (I : Locals -> Prop) (Q : call -> Prop)
      (env : Env) (frames : list FrameInput) :
  (forall f s, I s -> I (frame_locals f s)) ->
  (forall f s, I s -> Forall Q (frame_calls f s)) ->
  (forall s w, startup env initial_world = Ret s w -> I s) ->
  context_ok env = true ->
  exists r w in_loop after_loop,
    main env frames initial_world = Ret r w /\
    stderr w = recoverable_messages env /\
    trace w = startup_calls env ++ in_loop ++ after_loop /\
    Forall Q in_loop /\
    ((r = None /\ after_loop = [] /\ should_close w = false) \/
     (r = Some 0%Z /\ should_close w = true /\
      exists s', I s' /\ after_loop = cleanup_calls s')).
Proof.
  intros HI HQ Hinit Hctx.
  destruct (startup_from_empty env Hctx) as (s0 & Hs0 & _).
  rewrite (main_unfold env frames s0 _ Hs0).
  destruct (main_loop_invariant I Q HI HQ frames s0
              (mkWorld (recoverable_messages env) (startup_calls env) false)
              (Hinit _ _ Hs0))
    as (r & w1 & new & Hrun & Htr & Hnew & Herr & Hsome & Hnone).
  rewrite Hrun. simpl in Htr, Herr.
  destruct r as [s' |].
  - destruct (Hsome s' eq_refl) as [Hs' Hclose].
    exists (Some 0%Z), (mkWorld (stderr w1) (trace w1 ++ cleanup_calls s')
                               (should_close w1)), new, (cleanup_calls s').
    simpl. rewrite Htr, <- app_assoc.
    repeat (split; [auto |]). right. repeat (split; [auto |]).
    exists s'. split; [exact Hs' | reflexivity].
  - exists None, w1, new, []. rewrite Htr, app_nil_r.
    repeat (split; [auto |]). left. auto.
Qed.

(** ** Failures *)

Lemma In_recoverable (env : Env) :
  (vertex_success env = false ->
   In ("ERROR::SHADER::VERTEX::COMPILATION_FAILED" ++ newline
       ++ vertex_infoLog env)%string (recoverable_messages env)) /\
  (fragment_success env = false ->
   In ("ERROR::SHADER::FRAGMENT::COMPILATION_FAILED" ++ newline
       ++ fragment_infoLog env)%string (recoverable_messages env)) /\
  (link_success env = false ->
   In ("ERROR::SHADER::PROGRAM::LINKING_FAILED" ++ newline
       ++ link_infoLog env)%string (recoverable_messages env)) /\
  (stbi_load env = None ->
   In "Failed to load texture"%string (recoverable_messages env)).
Proof.
  unfold recoverable_messages.
  repeat split; intros ->; rewrite ?in_app_iff; simpl; tauto.
Qed.

Lemma startup_calls_last (env : Env) :
  context_ok env = true ->
  In (glUniform1i (loc_lightOn env) 1) (startup_calls env).
Proof.
  intros Hctx.
  startup_cases env Hctx; apply in_or_app; right; left; reflexivity.
Qed.

(** C2.  Every failure of context creation, shader compilation or linking,
    and texture loading writes its line to standard error.  A failure of
    [glfwInit], of window creation or of [gladLoadGLLoader] ends the run
    there with [exit(EXIT_FAILURE)]: nothing is logged or called after it
    (window creation calls [glfwTerminate] first).  With a working context
    the run never exits: shader and texture failures are logged, the
    start-up code runs to its last call and [main] goes on into the loop. *)
Theorem failures_logged (env : Env) (frames : list FrameInput) :
  let run := main env frames initial_world in
  (glfwInit_ok env = false ->
   run = Exited EXIT_FAILURE
                (mkWorld ["Failed to initialize GLFW"%string] [] false)) /\
  (glfwInit_ok env = true -> glfwCreateWindow_ok env = false ->
   run = Exited EXIT_FAILURE
                (mkWorld ["Failed to create GLFW window"%string]
                         (hint_calls ++ [glfwTerminate]) false)) /\
  (glfwInit_ok env = true -> glfwCreateWindow_ok env = true ->
   gladLoadGLLoader_ok env = false ->
   run = Exited EXIT_FAILURE
                (mkWorld ["Failed to initialize GLAD"%string]
                         (hint_calls ++ [glfwMakeContextCurrent]) false)) /\
  (context_ok env = true ->
   exists r w,
     run = Ret r w /\
     stderr w = recoverable_messages env /\
     (vertex_success env = false ->
      In ("ERROR::SHADER::VERTEX::COMPILATION_FAILED" ++ newline
          ++ vertex_infoLog env)%string (stderr w)) /\
     (fragment_success env = false ->
      In ("ERROR::SHADER::FRAGMENT::COMPILATION_FAILED" ++ newline
          ++ fragment_infoLog env)%string (stderr w)) /\
     (link_success env = false ->
      In ("ERROR::SHADER::PROGRAM::LINKING_FAILED" ++ newline
          ++ link_infoLog env)%string (stderr w)) /\
     (stbi_load env = None -> In "Failed to load texture"%string (stderr w)) /\
     In (glUniform1i (loc_lightOn env) 1) (trace w)).
Proof.
  intros run. unfold run.
  split; [| split; [| split]].
  - intros Hi. unfold main, startup, initGLFWandGLAD.
    rewrite Hi. reflexivity.
  - intros Hi Hw. unfold main, startup, initGLFWandGLAD.
    rewrite Hi, Hw. reflexivity.
  - intros Hi Hw Hg. unfold main, startup, initGLFWandGLAD.
    rewrite Hi, Hw, Hg. reflexivity.
  - intros Hctx.
    destruct (main_runs (fun _ => True) (fun _ => True) env frames)
      as (r & w & in_loop & after_loop & Hrun & Herr & Htr & _);
      auto.
    { intros f s _. apply Forall_forall. auto. }
    exists r, w. rewrite Herr, Htr.
    destruct (In_recoverable env) as (Hv & Hf & Hl & Ht).
    repeat (split; [assumption || reflexivity |]).
    apply in_or_app. left. apply startup_calls_last, Hctx.
Qed.

Lemma failures_logged_witness :
  main (set_context false true true env_ok) [] initial_world
  = Exited EXIT_FAILURE
           (mkWorld ["Failed to initialize GLFW"%string] [] false) /\
  main (set_context true false true env_ok) [] initial_world
  = Exited EXIT_FAILURE
           (mkWorld ["Failed to create GLFW window"%string]
                    (hint_calls ++ [glfwTerminate]) false) /\
  main (set_context true true false env_ok) [] initial_world
  = Exited EXIT_FAILURE
           (mkWorld ["Failed to initialize GLAD"%string]
                    (hint_calls ++ [glfwMakeContextCurrent]) false) /\
  exists r w,
    main env_all_recoverable [] initial_world = Ret r w /\
    List.length (stderr w) = 4%nat.
Proof.
  split; [| split; [| split]].
  - exact (proj1 (failures_logged (set_context false true true env_ok) [])
                 eq_refl).
  - exact (proj1 (proj2 (failures_logged (set_context true false true env_ok) []))
                 eq_refl eq_refl).
  - exact (proj1 (proj2 (proj2
             (failures_logged (set_context true true false env_ok) [])))
                 eq_refl eq_refl eq_refl).
  - destruct (proj2 (proj2 (proj2 (failures_logged env_all_recoverable [])))
                    eq_refl) as (r & w & Hrun & Herr & _).
    exists r, w. split; [exact Hrun |]. rewrite Herr. reflexivity.
Defined.

(** ** The light switch *)

(** C3.  The start-up code leaves [lightOn = true] and sets the uniform to
    1.  An iteration in which L is reported pressed leaves [lightOn]
    negated and calls [glUniform1i(lightOnLoc, lightOn)] with the new
    value; an iteration in which L is not pressed leaves [lightOn] as it
    was and makes no [glUniform1i] call. *)
Theorem lightOn_toggles (env : Env) (f : FrameInput) (s : Locals) (w : World) :
  context_ok env = true ->
  (exists s0 w0,
      startup env initial_world = Ret s0 w0 /\ lightOn s0 = true /\
      In (glUniform1i (loc_lightOn env) (Z.b2z true)) (trace w0)) /\
  (exists s' w' new,
      iteration f s w = Ret s' w' /\ trace w' = trace w ++ new /\
      if pressed f GLFW_KEY_L
      then lightOn s' = negb (lightOn s) /\
           In (glUniform1i (lightOnLoc s) (Z.b2z (lightOn s'))) new
      else lightOn s' = lightOn s /\
           forall loc v, ~ In (glUniform1i loc v) new).
Proof.
  intros Hctx. split.
  - destruct (startup_from_empty env Hctx) as (s0 & Hs0 & _ & _ & Hl & _).
    eexists _, _. split; [exact Hs0 |]. split; [exact Hl |].
    simpl. apply startup_calls_last, Hctx.
  - eexists _, _, _. split; [apply iteration_runs |]. split; [reflexivity |].
    rewrite frame_calls_eq, frame_locals_eq. simpl.
    destruct (pressed f GLFW_KEY_L), (pressed f GLFW_KEY_ESCAPE); simpl;
      (split; [reflexivity |]); try tauto;
      intros loc v Hin;
      repeat (destruct Hin as [Hin | Hin]; [discriminate |]); exact Hin.
Qed.

Lemma lightOn_toggles_witness :
  exists s' w' new,
    iteration (frame_keys 1 [GLFW_KEY_L]) sample_locals initial_world
    = Ret s' w' /\
    trace w' = new /\ lightOn s' = false /\ In (glUniform1i 3 0) new.
Proof.
  destruct (lightOn_toggles env_ok (frame_keys 1 [GLFW_KEY_L]) sample_locals
                            initial_world eq_refl)
    as (_ & s' & w' & new & Hrun & Htr & Hl & Hin).
  exists s', w', new. cbn in Htr, Hl, Hin.
  rewrite Hl in Hin. auto.
Defined.

(** ** The fragment shader *)

(** C8.  With [lightOn] true each component of the fragment colour is the
    product of that component of the texture sample at [TexCoord] and of
    [vec4(ourColor, 1.0)]: red, green and blue are multiplied by the
    interpolated colour, alpha by 1.  With [lightOn] false the fragment
    colour is [vec4(ourColor, 1.0)], the same whatever texture is bound. *)
Theorem fragment_color (texture1 : FragmentShader.sampler2D)
        (ourColor : vec3) (TexCoord : vec2) :
  FragmentShader.main texture1 true ourColor TexCoord
  = mkvec4 (wx (texture1 TexCoord) * vx ourColor)
           (wy (texture1 TexCoord) * vy ourColor)
           (wz (texture1 TexCoord) * vz ourColor)
           (ww (texture1 TexCoord) * 1) /\
  FragmentShader.main texture1 false ourColor TexCoord
  = mkvec4 (vx ourColor) (vy ourColor) (vz ourColor) 1 /\
  (forall texture2,
      FragmentShader.main texture2 false ourColor TexCoord
      = FragmentShader.main texture1 false ourColor TexCoord).
Proof. repeat split. Qed.

(** ** The model matrix *)

Lemma normalize_y_axis : normalize (mkvec3 0 1 0) = mkvec3 0 1 0.
Proof.
  unfold normalize, inversesqrt, dot, vscale; simpl.
  replace (0 * 0 + 1 * 1 + 0 * 0) with 1 by ring.
  rewrite sqrt_1. f_equal; field.
Qed.

(** The entries of the model matrix, each operation of [glm::rotate] in
    its place except the products by the 0 and 1 of the axis and of the
    identity matrix and the sums with those zeros. *)
Lemma model_matrix_entries (t : R) :
  model_matrix t
  = mkmat4 (mkvec4 (cos (t * (50 * (PI / 180)))) 0
                   (- sin (t * (50 * (PI / 180)))) 0)
           (mkvec4 0 (cos (t * (50 * (PI / 180)))
                      + (1 - cos (t * (50 * (PI / 180))))) 0 0)
           (mkvec4 (sin (t * (50 * (PI / 180)))) 0
                   (cos (t * (50 * (PI / 180)))) 0)
           (mkvec4 0 0 0 1).
Proof.
  unfold model_matrix, rotate. rewrite normalize_y_axis. unfold radians.
  set (a := t * (50 * (PI / 180))).
  unfold mat4_diag, vadd4, vscale4, vscale; simpl.
  f_equal; f_equal; ring.
Qed.

(** C10.  In every iteration the model uniform is set to the matrix of the
    rotation about the Y axis by the angle [a = t * (50 * pi/180)] radians,
    that is 50 degrees for each second of the clock reading [t] taken for
    it: its columns are (cos a, 0, -sin a, 0), (0, u, 0, 0),
    (sin a, 0, cos a, 0) and (0, 0, 0, 1), where [u] is 1 as the code
    computes it, [cos a + (1 - cos a)].  The matrix is the identity at
    time 0 and is not the identity at 1.8 seconds (a quarter turn). *)
Theorem model_rotates (f : FrameInput) (s : Locals) (w : World) :
  let a := time_model f * (50 * (PI / 180)) in
  let m := mkmat4 (mkvec4 (cos a) 0 (- sin a) 0)
                  (mkvec4 0 (cos a + (1 - cos a)) 0 0)
                  (mkvec4 (sin a) 0 (cos a) 0)
                  (mkvec4 0 0 0 1) in
  model_matrix (time_model f) = m /\
  (exists s' w' new,
      iteration f s w = Ret s' w' /\ trace w' = trace w ++ new /\
      In (glUniformMatrix4fv (modelLoc s) m) new /\
      forall m', In (glUniformMatrix4fv (modelLoc s) m') new ->
                 m' = m \/ m' = GetViewMatrix (camera s')) /\
  model_matrix 0 = mat4_diag 1 /\
  model_matrix (9 / 5) <> mat4_diag 1.
Proof.
  intros a m.
  assert (Hm : model_matrix (time_model f) = m)
    by apply model_matrix_entries.
  split; [exact Hm |]. split; [| split].
  - eexists _, _, _. split; [apply iteration_runs |]. split; [reflexivity |].
    rewrite frame_calls_eq, Hm. simpl. split.
    + rewrite !in_app_iff. simpl. tauto.
    + intros m'. rewrite !in_app_iff.
      destruct (pressed f GLFW_KEY_ESCAPE), (pressed f GLFW_KEY_L); simpl;
        intros Hin; decompose [or] Hin; clear Hin;
        try discriminate; try contradiction;
        match goal with
        | H : glUniformMatrix4fv _ _ = glUniformMatrix4fv _ _ |- _ =>
            injection H; intros; subst m'; auto
        end.
  - rewrite model_matrix_entries. unfold mat4_diag.
    replace (0 * (50 * (PI / 180))) with 0 by ring.
    rewrite cos_0, sin_0. repeat f_equal; ring.
  - rewrite model_matrix_entries.
    replace (9 / 5 * (50 * (PI / 180))) with (PI / 2) by field.
    unfold mat4_diag. rewrite cos_PI2. intros H.
    injection H as H _. lra.
Qed.

(** ** Geometry *)

Lemma frame_locals_arrays (f : FrameInput) (s : Locals) :
  l_vertices (frame_locals f s) = l_vertices s /\
  l_indices (frame_locals f s) = l_indices s.
Proof.
  rewrite frame_locals_eq. simpl.
  destruct (pressed f GLFW_KEY_L); split; reflexivity.
Qed.

Lemma frame_locals_handles (f : FrameInput) (s : Locals) :
  VAO (frame_locals f s) = VAO s /\ VBO (frame_locals f s) = VBO s /\
  EBO (frame_locals f s) = EBO s /\
  shaderProgram (frame_locals f s) = shaderProgram s.
Proof.
  rewrite frame_locals_eq. simpl.
  destruct (pressed f GLFW_KEY_L); repeat split; reflexivity.
Qed.

Lemma draw_count_indices (s : Locals) :
  l_indices s = indices -> draw_count s = 78%Z.
Proof. unfold draw_count. intros ->. reflexivity. Qed.

Lemma frame_calls_draw (f : FrameInput) (s : Locals) :
  l_indices s = indices ->
  Forall draws_all_indices (frame_calls f s) /\
  In (glDrawElements GL_TRIANGLES 78 GL_UNSIGNED_INT 0) (frame_calls f s).
Proof.
  intros Hs. rewrite frame_calls_eq, (draw_count_indices s Hs). split.
  - destruct (pressed f GLFW_KEY_ESCAPE), (pressed f GLFW_KEY_L); simpl;
      repeat constructor.
  - rewrite !in_app_iff. simpl. tauto.
Qed.

Lemma startup_calls_no_draw (env : Env) :
  context_ok env = true -> Forall draws_all_indices (startup_calls env).
Proof. intros Hctx. startup_cases env Hctx; repeat constructor. Qed.

(** C5.  The vertex array has 160 floats, that is 20 vertices of 8 floats;
    the index array has 78 entries, each of them a vertex number below 20;
    and every draw call of a run is [glDrawElements] of
    [sizeof(indices) / sizeof(indices[0]) = 78] indices, one such call per
    iteration. *)
Theorem geometry_counts (env : Env) (frames : list FrameInput) :
  context_ok env = true ->
  List.length vertices = 160%nat /\
  Z.of_nat (List.length vertices) = (20 * floats_per_vertex)%Z /\
  List.length indices = 78%nat /\
  Forall (fun i => (0 <= i < 20)%Z) indices /\
  (sizeof_array indices / sizeof_elem)%Z = 78%Z /\
  (exists r w,
      main env frames initial_world = Ret r w /\
      Forall draws_all_indices (trace w)) /\
  (forall f s w,
      l_indices s = indices ->
      exists s' w' new,
        iteration f s w = Ret s' w' /\ trace w' = trace w ++ new /\
        l_indices s' = indices /\
        In (glDrawElements GL_TRIANGLES 78 GL_UNSIGNED_INT 0) new).
Proof.
  intros Hctx.
  do 3 (split; [reflexivity |]).
  split; [unfold indices; repeat (constructor; [lia |]); constructor |].
  split; [reflexivity |].
  split.
  - destruct (main_runs (fun s => l_indices s = indices) draws_all_indices
                        env frames)
      as (r & w & in_loop & after_loop & Hrun & _ & Htr & Hin & Hafter); auto.
    + intros f s Hs. rewrite <- Hs. apply frame_locals_arrays.
    + intros f s Hs. apply frame_calls_draw, Hs.
    + intros s w Hs.
      destruct (startup_from_empty env Hctx) as (s0 & Hs0 & _ & Hidx & _).
      rewrite Hs0 in Hs. injection Hs as <- _. exact Hidx.
    + exists r, w. split; [exact Hrun |]. rewrite Htr.
      apply Forall_app. split; [apply startup_calls_no_draw, Hctx |].
      apply Forall_app. split; [exact Hin |].
      destruct Hafter as [(_ & -> & _) | (_ & _ & s' & _ & ->)];
        repeat constructor.
  - intros f s w Hs. eexists _, _, _.
    split; [apply iteration_runs |]. split; [reflexivity |]. split.
    + rewrite <- Hs. apply frame_locals_arrays.
    + apply frame_calls_draw, Hs.
Qed.

Lemma geometry_counts_witness :
  exists r w,
    main env_ok [frame_keys 0 []; frame_keys 1 [GLFW_KEY_W]] initial_world
    = Ret r w /\
    Forall draws_all_indices (trace w).
Proof.
  exact (proj1 (proj2 (proj2 (proj2 (proj2 (proj2
           (geometry_counts env_ok
              [frame_keys 0 []; frame_keys 1 [GLFW_KEY_W]] eq_refl))))))).
Defined.

Lemma gl_run_app (b : Buffers) (cs ds : list call) :
  gl_run b (cs ++ ds) = gl_run (gl_run b cs) ds.
Proof. unfold gl_run. apply fold_left_app. Qed.

Lemma gl_run_no_buffer_call (cs : list call) :
  Forall (fun c => is_buffer_call c = false) cs ->
  forall b, gl_run b cs = b.
Proof.
  induction 1 as [| c cs Hc _ IH]; intros b; [reflexivity |].
  unfold gl_run in *. simpl. rewrite <- (IH b) at 2. f_equal.
  destruct c; try reflexivity; discriminate.
Qed.

Lemma count_calls_app (p : call -> bool) (cs ds : list call) :
  count_calls p (cs ++ ds) = (count_calls p cs + count_calls p ds)%nat.
Proof. unfold count_calls. rewrite filter_app. apply length_app. Qed.

Lemma count_calls_none (p q : call -> bool) (cs : list call) :
  (forall c, q c = false -> p c = false) ->
  Forall (fun c => q c = false) cs -> count_calls p cs = 0%nat.
Proof.
  intros Hpq. unfold count_calls.
  induction 1 as [| c cs Hc _ IH]; [reflexivity |].
  simpl. rewrite (Hpq c Hc). exact IH.
Qed.

Lemma is_upload_buffer_call (target : GLenum) (c : call) :
  is_buffer_call c = false -> is_upload target c = false.
Proof. destruct c; try reflexivity; discriminate. Qed.

Lemma frame_calls_no_buffer_call (f : FrameInput) (s : Locals) :
  Forall (fun c => is_buffer_call c = false) (frame_calls f s).
Proof.
  rewrite frame_calls_eq.
  destruct (pressed f GLFW_KEY_ESCAPE), (pressed f GLFW_KEY_L); simpl;
    repeat constructor.
Qed.

Lemma startup_uploads (env : Env) :
  context_ok env = true ->
  count_calls (is_upload GL_ARRAY_BUFFER) (startup_calls env) = 1%nat /\
  count_calls (is_upload GL_ELEMENT_ARRAY_BUFFER) (startup_calls env) = 1%nat.
Proof. intros Hctx. startup_cases env Hctx; split; reflexivity. Qed.

Lemma startup_buffers (env : Env) :
  context_ok env = true ->
  gl_run no_buffers (startup_calls env)
  = mkBuffers (new_VBO env) (new_EBO env)
              (store_set (new_EBO env) (Some (UInts indices))
                 (store_set (new_VBO env) (Some (Floats vertices))
                            (fun _ => None))).
Proof. intros Hctx. startup_cases env Hctx; reflexivity. Qed.

Lemma cleanup_no_upload (target : GLenum) (s : Locals) :
  count_calls (is_upload target) (cleanup_calls s) = 0%nat.
Proof. destruct target; reflexivity. Qed.

(** C6.  In a run with a working context the vertex data and the index
    data are each uploaded by exactly one [glBufferData] call, both in the
    start-up code; the calls made inside the loop include no buffer call at
    all, so the buffer objects after any number of iterations are the ones
    the start-up left, holding [vertices] and [indices]; and an iteration
    leaves the two client arrays and the buffer objects as it found
    them. *)
Theorem geometry_static (env : Env) (frames : list FrameInput) :
  context_ok env = true ->
  (exists r w in_loop after_loop,
      main env frames initial_world = Ret r w /\
      trace w = startup_calls env ++ in_loop ++ after_loop /\
      count_calls (is_upload GL_ARRAY_BUFFER) (startup_calls env) = 1%nat /\
      count_calls (is_upload GL_ELEMENT_ARRAY_BUFFER) (startup_calls env) = 1%nat /\
      count_calls (is_upload GL_ARRAY_BUFFER) (trace w) = 1%nat /\
      count_calls (is_upload GL_ELEMENT_ARRAY_BUFFER) (trace w) = 1%nat /\
      Forall (fun c => is_buffer_call c = false) in_loop /\
      gl_run no_buffers (startup_calls env ++ in_loop)
      = gl_run no_buffers (startup_calls env)) /\
  store (gl_run no_buffers (startup_calls env)) (new_EBO env)
  = Some (UInts indices) /\
  (new_VBO env <> new_EBO env ->
   store (gl_run no_buffers (startup_calls env)) (new_VBO env)
   = Some (Floats vertices)) /\
  (forall f s w0,
      exists s' w',
        iteration f s w0 = Ret s' w' /\
        l_vertices s' = l_vertices s /\ l_indices s' = l_indices s /\
        forall b, gl_run b (trace w') = gl_run b (trace w0)).
Proof.
  intros Hctx.
  destruct (startup_uploads env Hctx) as [Hva Hea].
  split; [| split; [| split]].
  - destruct (main_runs (fun _ => True) (fun c => is_buffer_call c = false)
                        env frames)
      as (r & w & in_loop & after_loop & Hrun & _ & Htr & Hin & Hafter); auto.
    { intros f s _. apply frame_calls_no_buffer_call. }
    exists r, w, in_loop, after_loop.
    assert (Hafter0 : forall target,
               count_calls (is_upload target) after_loop = 0%nat).
    { intros target.
      destruct Hafter as [(_ & -> & _) | (_ & _ & s' & _ & ->)];
        [reflexivity | apply cleanup_no_upload]. }
    assert (Hloop0 : forall target,
               count_calls (is_upload target) in_loop = 0%nat).
    { intros target.
      apply (count_calls_none _ is_buffer_call);
        [apply is_upload_buffer_call | exact Hin]. }
    rewrite Htr, !count_calls_app, !Hafter0, !Hloop0, Hva, Hea.
    repeat (split; [reflexivity || assumption |]).
    rewrite gl_run_app. apply gl_run_no_buffer_call, Hin.
  - rewrite (startup_buffers env Hctx). simpl. unfold store_set.
    rewrite Z.eqb_refl. reflexivity.
  - intros Hne. rewrite (startup_buffers env Hctx). simpl. unfold store_set.
    rewrite Z.eqb_refl.
    destruct (Z.eqb_spec (new_VBO env) (new_EBO env)) as [Heq | _];
      [contradiction | reflexivity].
  - intros f s w0. eexists _, _. split; [apply iteration_runs |].
    destruct (frame_locals_arrays f s) as [Hv Hi].
    split; [exact Hv |]. split; [exact Hi |].
    intros b. simpl. rewrite gl_run_app.
    apply gl_run_no_buffer_call, frame_calls_no_buffer_call.
Qed.

Lemma geometry_static_witness :
  store (gl_run no_buffers (startup_calls env_ok)) (new_EBO env_ok)
  = Some (UInts indices) /\
  store (gl_run no_buffers (startup_calls env_ok)) (new_VBO env_ok)
  = Some (Floats vertices).
Proof.
  destruct (geometry_static env_ok [frame_keys 0 [GLFW_KEY_D]] eq_refl)
    as (_ & He & Hv & _).
  split; [exact He |]. apply Hv. simpl. discriminate.
Defined.

(** ** Leaving the loop *)

Lemma frame_calls_one_swap (f : FrameInput) (s : Locals) :
  count_calls is_swap (frame_calls f s) = 1%nat.
Proof.
  rewrite frame_calls_eq.
  destruct (pressed f GLFW_KEY_ESCAPE), (pressed f GLFW_KEY_L); reflexivity.
Qed.

Lemma frame_calls_escape (f : FrameInput) (s : Locals) :
  In (glfwSetWindowShouldClose true) (frame_calls f s)
  <-> pressed f GLFW_KEY_ESCAPE = true.
Proof.
  rewrite frame_calls_eq.
  destruct (pressed f GLFW_KEY_ESCAPE), (pressed f GLFW_KEY_L); simpl;
    split; intros H; try tauto; try discriminate;
    repeat (destruct H as [H | H]; [discriminate |]); contradiction.
Qed.

(** Frames without Escape and without a close request are all executed and
    leave the loop running, whatever other keys are down. *)
Lemma main_loop_no_quit (before : list FrameInput) :
  forall (s : Locals) (w : World),
    should_close w = false ->
    Forall no_quit before ->
    exists s' w' new,
      (forall rest, main_loop (before ++ rest) s w = main_loop rest s' w') /\
      should_close w' = false /\ stderr w' = stderr w /\
      trace w' = trace w ++ new /\
      count_calls is_swap new = List.length before /\
      VAO s' = VAO s /\ VBO s' = VBO s /\ EBO s' = EBO s /\
      shaderProgram s' = shaderProgram s.
Proof.
  induction before as [| g before IH]; intros s w Hc Hq.
  - exists s, w, []. rewrite app_nil_r. repeat split; auto.
  - inversion Hq as [| g' before' [Hesc Hreq] Hq']; subst.
    destruct (IH (frame_locals g s)
                 (mkWorld (stderr w) (trace w ++ frame_calls g s)
                          (pressed g GLFW_KEY_ESCAPE || close_requested g)))
      as (s' & w' & new & Hrest & Hc' & Herr & Htr & Hswap & Hh);
      [simpl; rewrite Hesc, Hreq; reflexivity | exact Hq' |].
    exists s', w', (frame_calls g s ++ new). simpl in Herr, Htr.
    split.
    { intros rest. rewrite <- app_comm_cons, main_loop_step by exact Hc.
      apply Hrest. }
    rewrite Htr, app_assoc, count_calls_app, frame_calls_one_swap, Hswap.
    destruct (frame_locals_handles g s) as (H1 & H2 & H3 & H4).
    destruct Hh as (K1 & K2 & K3 & K4).
    repeat split; auto; congruence.
Qed.

(** C7.  When the frames before [f] carry neither Escape nor a close
    request and Escape is reported pressed in [f], the run sets the
    should-close flag in that iteration, finishes it, leaves the loop at the
    next test of the guard without touching the frames after [f], runs the
    clean-up and returns 0.  Up to [f], with arbitrary other keys down, the
    loop is still running. *)
Theorem escape_quits (env : Env) (before : list FrameInput) (f : FrameInput)
        (after : list FrameInput) :
  context_ok env = true ->
  Forall no_quit before ->
  pressed f GLFW_KEY_ESCAPE = true ->
  (exists w in_loop,
      main env (before ++ f :: after) initial_world = Ret (Some 0%Z) w /\
      should_close w = true /\
      trace w = startup_calls env ++ in_loop
                ++ [glDeleteVertexArrays (new_VAO env);
                    glDeleteBuffers (new_VBO env);
                    glDeleteBuffers (new_EBO env);
                    glDeleteProgram (new_program env); glfwTerminate] /\
      count_calls is_swap in_loop = S (List.length before) /\
      In (glfwSetWindowShouldClose true) in_loop) /\
  (exists w,
      main env before initial_world = Ret None w /\ should_close w = false) /\
  (forall s w0,
      exists s' w',
        iteration f s w0 = Ret s' w' /\ should_close w' = true /\
        forall frames, main_loop frames s' w' = Ret (Some s') w').
Proof.
  intros Hctx Hq Hesc.
  destruct (startup_from_empty env Hctx)
    as (s0 & Hs0 & _ & _ & _ & HVAO & HVBO & HEBO & Hprog & _).
  destruct (main_loop_no_quit before s0
              (mkWorld (recoverable_messages env) (startup_calls env) false)
              eq_refl Hq)
    as (s1 & w1 & new & Hrest & Hc1 & _ & Htr & Hswap & K1 & K2 & K3 & K4).
  simpl in Htr.
  split; [| split].
  - rewrite (main_unfold env _ s0 _ Hs0), Hrest.
    rewrite main_loop_step by exact Hc1.
    rewrite main_loop_closed by (simpl; rewrite Hesc; reflexivity).
    eexists _, (new ++ frame_calls f s1). simpl.
    split; [reflexivity |]. split; [rewrite Hesc; reflexivity |].
    destruct (frame_locals_handles f s1) as (H1 & H2 & H3 & H4).
    split; [| split].
    + rewrite Htr, <- !app_assoc. unfold cleanup_calls.
      rewrite H1, H2, H3, H4, K1, K2, K3, K4, HVAO, HVBO, HEBO, Hprog.
      reflexivity.
    + rewrite count_calls_app, Hswap, frame_calls_one_swap. lia.
    + apply in_or_app. right. apply frame_calls_escape, Hesc.
  - rewrite (main_unfold env _ s0 _ Hs0).
    rewrite <- (app_nil_r before), Hrest.
    rewrite main_loop_out_of_frames by exact Hc1.
    exists w1. split; [reflexivity | exact Hc1].
  - intros s w0. eexists _, _. split; [apply iteration_runs |].
    simpl. rewrite Hesc, orb_true_r. simpl.
    split; [reflexivity |]. intros frames. apply main_loop_closed.
    reflexivity.
Qed.

Lemma escape_quits_witness :
  exists w,
    main env_ok
         ([frame_keys 0 [GLFW_KEY_W; GLFW_KEY_L]; frame_keys 1 [GLFW_KEY_A]]
          ++ frame_keys 2 [GLFW_KEY_ESCAPE] :: [frame_keys 3 []])
         initial_world
    = Ret (Some 0%Z) w /\ should_close w = true.
Proof.
  assert (Hq : Forall no_quit
                 [frame_keys 0 [GLFW_KEY_W; GLFW_KEY_L];
                  frame_keys 1 [GLFW_KEY_A]]).
  { repeat constructor. }
  destruct (escape_quits env_ok
              [frame_keys 0 [GLFW_KEY_W; GLFW_KEY_L]; frame_keys 1 [GLFW_KEY_A]]
              (frame_keys 2 [GLFW_KEY_ESCAPE]) [frame_keys 3 []]
              eq_refl Hq eq_refl)
    as ((w & in_loop & Hrun & Hc & _) & _).
  exists w. split; assumption.
Defined.

Lemma model_rotates_witness :
  model_matrix (9 / 5)
  = mkmat4 (mkvec4 (cos (9 / 5 * (50 * (PI / 180)))) 0
                   (- sin (9 / 5 * (50 * (PI / 180)))) 0)
           (mkvec4 0 (cos (9 / 5 * (50 * (PI / 180)))
                      + (1 - cos (9 / 5 * (50 * (PI / 180))))) 0 0)
           (mkvec4 (sin (9 / 5 * (50 * (PI / 180)))) 0
                   (cos (9 / 5 * (50 * (PI / 180)))) 0)
           (mkvec4 0 0 0 1) /\
  model_matrix (9 / 5) <> mat4_diag 1.
Proof.
  destruct (model_rotates (frame_keys (9 / 5) []) sample_locals initial_world)
    as (Hm & _ & _ & Hne).
  split; [exact Hm | exact Hne].
Defined.

(** * Further properties of the code *)

(** ** Whole runs of the loop *)

Lemma startup_exact (env : Env) :
  context_ok env = true ->
  startup env initial_world
  = Ret (initial_locals env)
        (mkWorld (recoverable_messages env) (startup_calls env) false).
Proof.
  intros Hctx. unfold recoverable_messages, initial_locals.
  startup_cases env Hctx; reflexivity.
Qed.

Lemma run_frames_handles (frames : list FrameInput) :
  forall s,
    VAO (run_frames frames s) = VAO s /\ VBO (run_frames frames s) = VBO s /\
    EBO (run_frames frames s) = EBO s /\
    shaderProgram (run_frames frames s) = shaderProgram s.
Proof.
  induction frames as [| f frames IH]; intros s; [repeat split |].
  simpl. destruct (IH (frame_locals f s)) as (H1 & H2 & H3 & H4).
  destruct (frame_locals_handles f s) as (K1 & K2 & K3 & K4).
  repeat split; congruence.
Qed.

Lemma cleanup_calls_run (frames : list FrameInput) (s : Locals) :
  cleanup_calls (run_frames frames s) = cleanup_calls s.
Proof.
  unfold cleanup_calls.
  destruct (run_frames_handles frames s) as (-> & -> & -> & ->). reflexivity.
Qed.

(** The loop plays the frames up to the first that quits, and no further. *)
Lemma main_loop_played (frames : list FrameInput) :
  forall (s : Locals) (w : World),
    should_close w = false ->
    main_loop frames s w
    = Ret (if existsb quits frames
           then Some (run_frames (played frames) s) else None)
          (mkWorld (stderr w) (trace w ++ run_calls (played frames) s)
                   (existsb quits frames)).
Proof.
  induction frames as [| f frames IH]; intros s w Hc.
  - rewrite main_loop_out_of_frames by exact Hc.
    destruct w as [err tr sc]. simpl in *. subst sc.
    rewrite app_nil_r. reflexivity.
  - rewrite main_loop_step by exact Hc. fold (quits f). simpl.
    destruct (quits f) eqn:Hq.
    + rewrite main_loop_closed by reflexivity. simpl.
      rewrite app_nil_r. reflexivity.
    + rewrite IH by reflexivity. simpl. rewrite app_assoc. reflexivity.
Qed.

Lemma main_exact (env : Env) (frames : list FrameInput) :
  context_ok env = true ->
  main env frames initial_world
  = Ret (if existsb quits frames then Some 0%Z else None)
        (mkWorld (recoverable_messages env)
                 (startup_calls env
                  ++ run_calls (played frames) (initial_locals env)
                  ++ (if existsb quits frames
                      then cleanup_calls (initial_locals env) else []))
                 (existsb quits frames)).
Proof.
  intros Hctx.
  rewrite (main_unfold env frames _ _ (startup_exact env Hctx)).
  rewrite main_loop_played by reflexivity. simpl.
  destruct (existsb quits frames).
  - rewrite cleanup_calls_run, <- app_assoc. reflexivity.
  - rewrite app_nil_r. reflexivity.
Qed.

Lemma played_idem (frames : list FrameInput) :
  played (played frames) = played frames /\
  existsb quits (played frames) = existsb quits frames.
Proof.
  induction frames as [| f frames [IH1 IH2]]; [split; reflexivity |].
  simpl. destruct (quits f) eqn:Hq; simpl; rewrite ?Hq; simpl.
  - split; reflexivity.
  - rewrite IH1, IH2. split; reflexivity.
Qed.

Lemma played_length (frames : list FrameInput) :
  (List.length (played frames) <= List.length frames)%nat.
Proof.
  induction frames as [| f frames IH]; simpl; [lia |].
  destruct (quits f); simpl; lia.
Qed.

Lemma frame_calls_counts (f : FrameInput) (s : Locals) :
  count_calls is_draw (frame_calls f s) = 1%nat /\
  count_calls is_poll (frame_calls f s) = 1%nat.
Proof.
  rewrite frame_calls_eq.
  destruct (pressed f GLFW_KEY_ESCAPE), (pressed f GLFW_KEY_L);
    split; reflexivity.
Qed.

Lemma run_calls_counts (frames : list FrameInput) :
  forall s,
    count_calls is_swap (run_calls frames s) = List.length frames /\
    count_calls is_draw (run_calls frames s) = List.length frames /\
    count_calls is_poll (run_calls frames s) = List.length frames.
Proof.
  induction frames as [| f frames IH]; intros s; [repeat split |].
  simpl. rewrite !count_calls_app, frame_calls_one_swap.
  destruct (frame_calls_counts f s) as [-> ->].
  destruct (IH (frame_locals f s)) as (-> & -> & ->). repeat split.
Qed.

Lemma startup_calls_no_frame_call (env : Env) :
  context_ok env = true ->
  count_calls is_swap (startup_calls env) = 0%nat /\
  count_calls is_draw (startup_calls env) = 0%nat /\
  count_calls is_poll (startup_calls env) = 0%nat.
Proof. intros Hctx. startup_cases env Hctx; repeat split. Qed.

(** X1.  With a working context the outcome of [main] is decided by the
    frames alone: it returns 0 exactly when some frame reports Escape or
    carries a close request, and is still in the loop otherwise.  The
    iterations executed are those up to and including the first such
    frame, each with exactly one draw call, one buffer swap and one poll;
    the frames after it are never looked at. *)
Theorem main_outcome (env : Env) (frames : list FrameInput) :
  context_ok env = true ->
  exists w,
    main env frames initial_world
    = Ret (if existsb quits frames then Some 0%Z else None) w /\
    should_close w = existsb quits frames /\
    count_calls is_draw (trace w) = List.length (played frames) /\
    count_calls is_swap (trace w) = List.length (played frames) /\
    count_calls is_poll (trace w) = List.length (played frames) /\
    (List.length (played frames) <= List.length frames)%nat /\
    main env (played frames) initial_world = main env frames initial_world.
Proof.
  intros Hctx. eexists. split; [apply main_exact, Hctx |]. simpl.
  split; [reflexivity |].
  destruct (startup_calls_no_frame_call env Hctx) as (Hs & Hd & Hp).
  destruct (run_calls_counts (played frames) (initial_locals env))
    as (Rs & Rd & Rp).
  assert (Hc : forall p, p = is_swap \/ p = is_draw \/ p = is_poll ->
               count_calls p (if existsb quits frames
                              then cleanup_calls (initial_locals env)
                              else []) = 0%nat).
  { intros p [-> | [-> | ->]]; destruct (existsb quits frames); reflexivity. }
  rewrite !count_calls_app, Hs, Hd, Hp, Rs, Rd, Rp, !Hc by tauto.
  repeat (split; [lia |]). split; [apply played_length |].
  rewrite !main_exact by exact Hctx.
  destruct (played_idem frames) as [-> ->]. reflexivity.
Qed.

Lemma main_outcome_witness :
  exists w,
    main env_ok [frame_keys 0 [GLFW_KEY_W]; frame_close 1 []; frame_keys 2 []]
         initial_world
    = Ret (Some 0%Z) w /\
    count_calls is_draw (trace w) = 2%nat.
Proof.
  destruct (main_outcome env_ok
              [frame_keys 0 [GLFW_KEY_W]; frame_close 1 []; frame_keys 2 []]
              eq_refl)
    as (w & Hrun & _ & Hd & _).
  exists w. split; [exact Hrun | exact Hd].
Defined.

(** ** The camera along a run *)

Lemma same_orientation_refl (c : Camera) : same_orientation c c.
Proof. unfold same_orientation. repeat split. Qed.

Lemma same_orientation_trans (a b d : Camera) :
  same_orientation a b -> same_orientation b d -> same_orientation a d.
Proof.
  unfold same_orientation. intros Hab Hbd.
  decompose [and] Hab. decompose [and] Hbd. repeat split; congruence.
Qed.

Lemma ProcessKeyboard_orientation (d : Z) (dt : R) (c : Camera) :
  same_orientation c (ProcessKeyboard d dt c).
Proof.
  destruct (ProcessKeyboard_cases d dt c) as [p ->].
  unfold same_orientation. repeat split.
Qed.

Lemma camera_controls_orientation (f : FrameInput) (dt : R) (c : Camera) :
  same_orientation c (camera_controls f dt c).
Proof.
  unfold camera_controls, move_if_pressed.
  repeat match goal with
         | |- context [if pressed f ?k then _ else _] => destruct (pressed f k)
         end;
    repeat (eapply same_orientation_trans;
            [| apply ProcessKeyboard_orientation]);
    apply same_orientation_refl.
Qed.

Lemma frame_locals_camera (f : FrameInput) (s : Locals) :
  camera (frame_locals f s)
  = camera_controls f (time_top f - lastFrame s) (camera s).
Proof.
  rewrite frame_locals_eq. cbn zeta.
  destruct (pressed f GLFW_KEY_L); reflexivity.
Qed.

Lemma frame_locals_times (f : FrameInput) (s : Locals) :
  lastFrame (frame_locals f s) = time_top f /\
  deltaTime (frame_locals f s) = time_top f - lastFrame s.
Proof.
  rewrite frame_locals_eq. cbn zeta.
  destruct (pressed f GLFW_KEY_L); split; reflexivity.
Qed.

Lemma frame_locals_lightOn (f : FrameInput) (s : Locals) :
  lightOn (frame_locals f s) = xorb (lightOn s) (pressed f GLFW_KEY_L).
Proof.
  rewrite frame_locals_eq. cbn zeta.
  destruct (pressed f GLFW_KEY_L), (lightOn s) eqn:Hl; simpl;
    rewrite ?Hl; reflexivity.
Qed.

Lemma run_frames_app (a b : list FrameInput) :
  forall s, run_frames (a ++ b) s = run_frames b (run_frames a s).
Proof. induction a as [| f a IH]; intros s; [reflexivity | apply IH]. Qed.

Lemma run_frames_orientation (frames : list FrameInput) :
  forall s, same_orientation (camera s) (camera (run_frames frames s)).
Proof.
  induction frames as [| f frames IH]; intros s;
    [apply same_orientation_refl |].
  simpl. eapply same_orientation_trans; [| apply IH].
  rewrite frame_locals_camera. apply camera_controls_orientation.
Qed.

(** X2.  Whatever keys the frames of a run report, the camera of [main]
    only translates: after any number of iterations every field but
    [Position] (Yaw, Pitch, Front, Right, Up, WorldUp, MovementSpeed,
    MouseSensitivity, Zoom) is as the constructor left it, and
    [MovementSpeed] is 2.5. *)
Theorem camera_only_translates (env : Env) (frames : list FrameInput) :
  let c0 := Camera_new (mkvec3 0 0 5) (mkvec3 0 1 0) (-90) 0 in
  let c := camera (run_frames frames (initial_locals env)) in
  same_orientation c0 c /\ MovementSpeed c = 2.5.
Proof.
  intros c0 c.
  pose proof (run_frames_orientation frames (initial_locals env)) as Ho.
  change (camera (initial_locals env)) with c0 in Ho. fold c in Ho.
  split; [exact Ho |].
  destruct Ho as (_ & _ & _ & _ & _ & _ & HM & _).
  rewrite HM. reflexivity.
Qed.

Lemma last_time_run (frames : list FrameInput) :
  forall s, lastFrame (run_frames frames s) = last_time frames (lastFrame s).
Proof.
  induction frames as [| f frames IH]; intros s; [reflexivity |].
  simpl. rewrite IH. destruct (frame_locals_times f s) as [-> _].
  reflexivity.
Qed.

(** X3.  After every iteration [lastFrame] is the clock reading taken at
    the top of it and [deltaTime] is that reading minus the one of the
    iteration before; in the first iteration of a run [deltaTime] is the
    whole clock reading, because [lastFrame] starts at 0. *)
Theorem frame_timing (env : Env) (before : list FrameInput) (f : FrameInput)
        (s : Locals) :
  lastFrame (run_frames (before ++ [f]) s) = time_top f /\
  deltaTime (run_frames (before ++ [f]) s)
  = time_top f - last_time before (lastFrame s) /\
  deltaTime (run_frames [f] (initial_locals env)) = time_top f.
Proof.
  rewrite run_frames_app. simpl.
  destruct (frame_locals_times f (run_frames before s)) as [-> ->].
  rewrite last_time_run.
  destruct (frame_locals_times f (initial_locals env)) as [_ ->].
  repeat split. simpl. ring.
Qed.

Lemma count_L_cons (f : FrameInput) (frames : list FrameInput) :
  count_L (f :: frames)
  = ((if pressed f GLFW_KEY_L then 1 else 0) + count_L frames)%nat.
Proof. unfold count_L. simpl. destruct (pressed f GLFW_KEY_L); reflexivity. Qed.

(** X4.  L is not edge-triggered: the light flips once per iteration in
    which L is reported pressed, so after a run [lightOn] is its starting
    value flipped as many times as there were such frames.  From the
    start-up state it is on exactly when that number is even. *)
Theorem lightOn_parity (env : Env) (frames : list FrameInput) (s : Locals) :
  lightOn (run_frames frames s)
  = xorb (lightOn s) (Nat.odd (count_L frames)) /\
  lightOn (run_frames frames (initial_locals env))
  = Nat.even (count_L frames).
Proof.
  assert (H : forall fs s0, lightOn (run_frames fs s0)
                            = xorb (lightOn s0) (Nat.odd (count_L fs))).
  { induction fs as [| g fs IH]; intros s0.
    - simpl. destruct (lightOn s0); reflexivity.
    - simpl run_frames. rewrite IH, frame_locals_lightOn, count_L_cons.
      destruct (pressed g GLFW_KEY_L).
      + change (1 + count_L fs)%nat with (S (count_L fs)).
        rewrite Nat.odd_succ, <- Nat.negb_odd.
        destruct (lightOn s0), (Nat.odd (count_L fs)); reflexivity.
      + simpl. destruct (lightOn s0), (Nat.odd (count_L fs)); reflexivity. }
  split; [apply H |].
  rewrite H, <- Nat.negb_odd. reflexivity.
Qed.

(** ** Movement *)

(** X5.  [ProcessKeyboard] does nothing at all for a direction code that
    is none of W, S, A, D, Q, E, whatever [deltaTime] is: the camera it
    leaves is the camera it was given. *)
Theorem ProcessKeyboard_noop (direction : Z) (dt : R) (c : Camera) :
  is_movement_key direction = false -> ProcessKeyboard direction dt c = c.
Proof.
  unfold is_movement_key. intros H.
  repeat (apply orb_false_iff in H; destruct H as [H ?]).
  unfold ProcessKeyboard.
  repeat match goal with
         | E : Z.eqb direction ?k = false |- _ => rewrite E; clear E
         end.
  reflexivity.
Qed.

Lemma ProcessKeyboard_noop_witness :
  ProcessKeyboard GLFW_KEY_L 1 main_camera_fields = main_camera_fields /\
  ProcessKeyboard GLFW_KEY_ESCAPE 1 main_camera_fields = main_camera_fields.
Proof.
  split.
  - exact (ProcessKeyboard_noop GLFW_KEY_L 1 main_camera_fields eq_refl).
  - exact (ProcessKeyboard_noop GLFW_KEY_ESCAPE 1 main_camera_fields eq_refl).
Defined.

Lemma camera_controls_idle (f : FrameInput) (dt : R) (c : Camera) :
  no_movement f -> camera_controls f dt c = c.
Proof.
  intros (HW & HS & HA & HD & HQ & HE). unfold camera_controls, move_if_pressed.
  rewrite HW, HS, HA, HD, HQ, HE. reflexivity.
Qed.

(** X8.  The camera moves only while a movement key is down: over any run
    of frames in which none of W, S, A, D, Q, E is reported pressed the
    camera is unchanged, whatever the clock does and whether or not L or
    Escape is pressed. *)
Theorem camera_idle (frames : list FrameInput) (s : Locals) :
  Forall no_movement frames -> camera (run_frames frames s) = camera s.
Proof.
  revert s. induction frames as [| f frames IH]; intros s Hf; [reflexivity |].
  inversion Hf as [| g gs Hg Hgs]; subst. simpl.
  rewrite (IH _ Hgs), frame_locals_camera.
  apply camera_controls_idle, Hg.
Qed.

Lemma camera_idle_witness :
  camera (run_frames [frame_keys 1 [GLFW_KEY_L];
                      frame_keys 5 [GLFW_KEY_ESCAPE; GLFW_KEY_L]] sample_locals)
  = camera sample_locals.
Proof.
  apply (camera_idle [frame_keys 1 [GLFW_KEY_L];
                      frame_keys 5 [GLFW_KEY_ESCAPE; GLFW_KEY_L]]).
  repeat constructor.
Defined.

(** ** The fragment shader on white vertices *)

(** X12.  A lit fragment whose interpolated colour is white shows the
    texture sample unchanged, which is how the buildings (all vertices
    white) are drawn; the alpha written is the texture's when the light is
    on and 1 when it is off. *)
Theorem fragment_white (texture1 : FragmentShader.sampler2D)
        (ourColor : vec3) (TexCoord : vec2) :
  FragmentShader.main texture1 true (mkvec3 1 1 1) TexCoord
  = texture1 TexCoord /\
  ww (FragmentShader.main texture1 true ourColor TexCoord)
  = ww (texture1 TexCoord) /\
  ww (FragmentShader.main texture1 false ourColor TexCoord) = 1.
Proof.
  unfold FragmentShader.main, FragmentShader.texture, vmul4, vec4_of.
  cbn [vx vy vz wx wy wz ww].
  destruct (texture1 TexCoord) as [a b c d]. cbn [wx wy wz ww].
  split; [f_equal; ring |]. split; [ring | reflexivity].
Qed.

(** ** Start-up and shut-down *)

Lemma run_calls_forall (Q : call -> Prop) (frames : list FrameInput) :
  (forall f s, Forall Q (frame_calls f s)) ->
  forall s, Forall Q (run_calls frames s).
Proof.
  intros HQ. induction frames as [| f frames IH]; intros s; [constructor |].
  simpl. apply Forall_app. split; [apply HQ | apply IH].
Qed.

Lemma count_calls_zero (p : call -> bool) (cs : list call) :
  Forall (fun c => p c = false) cs -> count_calls p cs = 0%nat.
Proof.
  unfold count_calls. induction 1 as [| c cs Hc _ IH]; [reflexivity |].
  simpl. rewrite Hc. exact IH.
Qed.

Lemma frame_calls_plain (f : FrameInput) (s : Locals) :
  Forall (fun c => is_texture_upload c = false /\ is_image_free c = false /\
                   is_use_program c = false /\ is_attrib_pointer c = false)
         (frame_calls f s).
Proof.
  rewrite frame_calls_eq.
  destruct (pressed f GLFW_KEY_ESCAPE), (pressed f GLFW_KEY_L); simpl;
    repeat constructor.
Qed.

Lemma run_calls_plain (frames : list FrameInput) (s : Locals) :
  Forall (fun c => is_info_log c = false) (run_calls frames s).
Proof.
  apply run_calls_forall. intros f s0. rewrite frame_calls_eq.
  destruct (pressed f GLFW_KEY_ESCAPE), (pressed f GLFW_KEY_L); simpl;
    repeat constructor.
Qed.


Lemma startup_calls_status (env : Env) :
  context_ok env = true ->
  without_info_log (startup_calls env)
  = without_info_log
      (startup_calls (set_shader_status true true true
                                        EmptyString EmptyString EmptyString
                                        env)) /\
  count_calls is_info_log (startup_calls env)
  = failures (vertex_success env) (fragment_success env) (link_success env).
Proof.
  intros Hctx. destruct (context_ok_inv env Hctx) as (Hi & Hw & Hg).
  unfold startup_calls, startup, initGLFWandGLAD, upload_geometry,
    createShaderProgram, load_texture, initial_world, set_shader_status.
  cbn [glfwInit_ok glfwCreateWindow_ok gladLoadGLLoader_ok vertex_success
       fragment_success link_success stbi_load].
  rewrite Hi, Hw, Hg.
  destruct (vertex_success env), (fragment_success env), (link_success env),
    (stbi_load env) as [[[? ?] ?] |]; run_prog; split;
    lazy beta iota zeta delta
      [without_info_log count_calls filter is_info_log negb app];
    reflexivity.
Qed.

Lemma without_info_log_app (cs ds : list call) :
  without_info_log (cs ++ ds) = without_info_log cs ++ without_info_log ds.
Proof. apply filter_app. Qed.

(** X14.  Shader failures change nothing but the log: with a working
    context, the outcome of [main] and the sequence of calls it makes,
    draw calls included, are the same whatever the compile and link
    results and info logs are, apart from the info-log queries, of which a
    run makes one per failed step. *)
Theorem shader_status_ignored (env : Env) (frames : list FrameInput)
        (vs fs ln : bool) (lv lf ll : string) :
  context_ok env = true ->
  let env' := set_shader_status vs fs ln lv lf ll env in
  exists r w w',
    main env frames initial_world = Ret r w /\
    main env' frames initial_world = Ret r w' /\
    without_info_log (trace w') = without_info_log (trace w) /\
    count_calls is_info_log (trace w')
    = failures vs fs ln /\
    should_close w' = should_close w.
Proof.
  intros Hctx env'.
  assert (Hctx' : context_ok env' = true) by exact Hctx.
  eexists _, _, _.
  split; [apply main_exact, Hctx |]. split; [apply main_exact, Hctx' |].
  cbn [trace should_close].
  destruct (startup_calls_status env Hctx) as [Hs _].
  destruct (startup_calls_status env' Hctx') as [Hs' Hc'].
  split; [| split; [| reflexivity]].
  - rewrite !without_info_log_app, Hs, Hs'. reflexivity.
  - rewrite !count_calls_app, Hc'.
    pose proof (run_calls_plain (played frames) (initial_locals env')) as Hp.
    rewrite (count_calls_zero is_info_log _ Hp).
    replace (count_calls is_info_log
               (if existsb quits frames
                then cleanup_calls (initial_locals env') else []))
      with 0%nat by (destruct (existsb quits frames); reflexivity).
    unfold env'.
    cbn [vertex_success fragment_success link_success set_shader_status].
    lia.
Qed.

Lemma shader_status_ignored_witness :
  exists r w w',
    main env_ok [frame_keys 1 [GLFW_KEY_ESCAPE]] initial_world = Ret r w /\
    main (set_shader_status false false false "a" "b" "c" env_ok)
         [frame_keys 1 [GLFW_KEY_ESCAPE]] initial_world = Ret r w' /\
    without_info_log (trace w') = without_info_log (trace w) /\
    count_calls is_info_log (trace w') = 3%nat.
Proof.
  destruct (shader_status_ignored env_ok [frame_keys 1 [GLFW_KEY_ESCAPE]]
              false false false "a" "b" "c" eq_refl)
    as (r & w & w' & H1 & H2 & H3 & H4 & _).
  exists r, w, w'. repeat split; assumption.
Defined.

Lemma startup_texture_calls (env : Env) :
  context_ok env = true ->
  count_calls is_texture_upload (startup_calls env)
  = match stbi_load env with Some _ => 2%nat | None => 0%nat end /\
  count_calls is_image_free (startup_calls env) = 1%nat.
Proof. intros Hctx. startup_cases env Hctx; split; reflexivity. Qed.

(** X15.  A missing image is log-only too: with a working context the run
    uploads the texture ([glTexImage2D], [glGenerateMipmap]) exactly when
    [stbi_load] returned data and never otherwise, calls [stbi_image_free]
    once in either case, and draws once per iteration all the same. *)
Theorem texture_load_edge (env : Env) (frames : list FrameInput) :
  context_ok env = true ->
  exists r w,
    main env frames initial_world = Ret r w /\
    count_calls is_texture_upload (trace w)
    = match stbi_load env with Some _ => 2%nat | None => 0%nat end /\
    count_calls is_image_free (trace w) = 1%nat /\
    count_calls is_draw (trace w) = List.length (played frames).
Proof.
  intros Hctx. eexists _, _. split; [apply main_exact, Hctx |]. cbn [trace].
  destruct (startup_texture_calls env Hctx) as [Ht Hf].
  destruct (startup_calls_no_frame_call env Hctx) as (_ & Hd & _).
  destruct (run_calls_counts (played frames) (initial_locals env))
    as (_ & Rd & _).
  pose proof (run_calls_forall _ (played frames) frame_calls_plain
                               (initial_locals env)) as Hplain.
  assert (Rt : count_calls is_texture_upload
                 (run_calls (played frames) (initial_locals env)) = 0%nat).
  { apply count_calls_zero. eapply Forall_impl; [| exact Hplain].
    intros c Hc. apply Hc. }
  assert (Rf : count_calls is_image_free
                 (run_calls (played frames) (initial_locals env)) = 0%nat).
  { apply count_calls_zero. eapply Forall_impl; [| exact Hplain].
    intros c Hc. apply Hc. }
  rewrite !count_calls_app, Ht, Hf, Hd, Rd, Rt, Rf.
  destruct (existsb quits frames); cbn; repeat split; lia.
Qed.

Lemma texture_load_edge_witness :
  exists r w,
    main env_all_recoverable [frame_keys 1 []; frame_keys 2 []] initial_world
    = Ret r w /\
    count_calls is_texture_upload (trace w) = 0%nat /\
    count_calls is_draw (trace w) = 2%nat.
Proof.
  destruct (texture_load_edge env_all_recoverable
              [frame_keys 1 []; frame_keys 2 []] eq_refl)
    as (r & w & Hrun & Ht & _ & Hd).
  exists r, w. repeat split; assumption.
Defined.

(** X16.  The buffer objects live exactly as long as the loop: while the
    run is still in the loop the element buffer holds [indices] (and the
    vertex buffer [vertices] when the two names differ); once [main] has
    returned, no buffer name has a data store left. *)
Theorem buffers_lifetime (env : Env) (frames : list FrameInput) :
  context_ok env = true ->
  exists r w,
    main env frames initial_world = Ret r w /\
    let b := gl_run no_buffers (trace w) in
    (r = None ->
     store b (new_EBO env) = Some (UInts indices) /\
     (new_VBO env <> new_EBO env ->
      store b (new_VBO env) = Some (Floats vertices))) /\
    (r = Some 0%Z -> forall name, store b name = None).
Proof.
  intros Hctx. eexists _, _. split; [apply main_exact, Hctx |]. cbn [trace].
  rewrite !gl_run_app, (startup_buffers env Hctx).
  rewrite (gl_run_no_buffer_call
             (run_calls (played frames) (initial_locals env)))
    by (apply run_calls_forall; apply frame_calls_no_buffer_call).
  destruct (existsb quits frames); cbn zeta; split; try discriminate.
  - intros _ name. cbn. unfold store_set.
    destruct (Z.eqb name (new_EBO env)), (Z.eqb name (new_VBO env));
      reflexivity.
  - intros _. cbn. unfold store_set. rewrite Z.eqb_refl.
    split; [reflexivity |]. intros Hne.
    destruct (Z.eqb_spec (new_VBO env) (new_EBO env)) as [Heq | _];
      [contradiction | rewrite Z.eqb_refl; reflexivity].
Qed.

Lemma buffers_lifetime_witness :
  exists r w,
    main env_ok [frame_keys 1 [GLFW_KEY_ESCAPE]] initial_world = Ret r w /\
    forall name, store (gl_run no_buffers (trace w)) name = None.
Proof.
  destruct (buffers_lifetime env_ok [frame_keys 1 [GLFW_KEY_ESCAPE]] eq_refl)
    as (r & w & Hrun & _ & Hdel).
  exists r, w. split; [exact Hrun |]. apply Hdel.
  pose proof (main_exact env_ok [frame_keys 1 [GLFW_KEY_ESCAPE]] eq_refl) as He.
  rewrite He in Hrun. injection Hrun as <- _. reflexivity.
Defined.

(** ** What the draw call reads *)

Lemma indices_range : Forall (fun i => (0 <= i < 20)%Z) indices.
Proof. unfold indices. repeat (constructor; [lia |]). constructor. Qed.

Lemma attribute_in_bounds (index size offset : Z) :
  (0 <= offset)%Z -> (0 <= size)%Z ->
  (offset + size * sizeof_elem <= floats_per_vertex * sizeof_elem)%Z ->
  fetch_in_bounds (sizeof_array vertices) indices
    (glVertexAttribPointer index size GL_FLOAT false
                           (floats_per_vertex * sizeof_elem) offset).
Proof.
  intros Ho Hs Hfit. unfold fetch_in_bounds.
  eapply Forall_impl; [| exact indices_range].
  intros i Hi. cbv beta.
  change (sizeof_array vertices) with 640%Z.
  change (floats_per_vertex * sizeof_elem)%Z with 32%Z in *.
  unfold sizeof_elem in *. lia.
Qed.

Lemma startup_attribs (env : Env) :
  context_ok env = true ->
  count_calls is_attrib_pointer (startup_calls env) = 3%nat.
Proof. intros Hctx. startup_cases env Hctx; reflexivity. Qed.

(** X17.  The draw call never reads outside the vertex buffer: for each of
    the three attributes set up by [glVertexAttribPointer] and each entry
    [i] of the index array, the bytes from [offset + i * stride] to
    [offset + i * stride + size * sizeof(float)] lie within the
    [sizeof(vertices)] bytes uploaded. *)
Theorem vertex_fetch_in_bounds (env : Env) :
  context_ok env = true ->
  Forall (fetch_in_bounds (sizeof_array vertices) indices) (startup_calls env)
  /\ count_calls is_attrib_pointer (startup_calls env) = 3%nat.
Proof.
  intros Hctx. split; [| apply startup_attribs, Hctx].
  pose proof (attribute_in_bounds 0 3 0 ltac:(lia) ltac:(lia)
                ltac:(unfold floats_per_vertex, sizeof_elem; lia)) as H0.
  pose proof (attribute_in_bounds 1 3 (3 * sizeof_elem) ltac:(unfold sizeof_elem; lia)
                ltac:(lia)
                ltac:(unfold floats_per_vertex, sizeof_elem; lia)) as H1.
  pose proof (attribute_in_bounds 2 2 (6 * sizeof_elem) ltac:(unfold sizeof_elem; lia)
                ltac:(lia)
                ltac:(unfold floats_per_vertex, sizeof_elem; lia)) as H2.
  startup_cases env Hctx;
    repeat (apply Forall_app; split);
    repeat first [ apply Forall_nil
                 | apply Forall_cons; [first [exact H0 | exact H1 | exact H2
                                             | exact I] |] ].
Qed.

Lemma vertex_fetch_in_bounds_witness :
  Forall (fetch_in_bounds (sizeof_array vertices) indices)
         (startup_calls env_ok).
Proof. exact (proj1 (vertex_fetch_in_bounds env_ok eq_refl)). Defined.

(** ** Order of the calls *)

Lemma startup_calls_split (env : Env) :
  context_ok env = true ->
  exists pre post,
    startup_calls env = pre ++ glUseProgram (new_program env) :: post /\
    count_calls is_uniform pre = 0%nat /\
    count_calls is_use_program pre = 0%nat /\
    count_calls is_use_program post = 0%nat.
Proof.
  intros Hctx.
  startup_cases env Hctx; rewrite <- ?app_assoc; cbn [app];
    match goal with
    | |- exists pre post, ?calls = _ /\ _ =>
        first [ exists (firstn 34 calls), (skipn 35 calls);
                split; [reflexivity | repeat split]
              | exists (firstn 35 calls), (skipn 36 calls);
                split; [reflexivity | repeat split]
              | exists (firstn 36 calls), (skipn 37 calls);
                split; [reflexivity | repeat split]
              | exists (firstn 37 calls), (skipn 38 calls);
                split; [reflexivity | repeat split] ]
    end.
Qed.

Lemma count_calls_cons (p : call -> bool) (c : call) (cs : list call) :
  count_calls p (c :: cs)
  = ((if p c then 1 else 0) + count_calls p cs)%nat.
Proof. unfold count_calls. simpl. destruct (p c); reflexivity. Qed.

(** X18.  No uniform is set before the shader program is current: in every
    run with a working context [glUseProgram] is called exactly once, and
    none of the calls before it is a [glUniform1i] or a
    [glUniformMatrix4fv]. *)
Theorem uniforms_after_use_program (env : Env) (frames : list FrameInput) :
  context_ok env = true ->
  exists r w pre post,
    main env frames initial_world = Ret r w /\
    trace w = pre ++ glUseProgram (new_program env) :: post /\
    count_calls is_uniform pre = 0%nat /\
    count_calls is_use_program (trace w) = 1%nat.
Proof.
  intros Hctx.
  destruct (startup_calls_split env Hctx) as (pre & post & Hs & Hu & Hp & Hq).
  eexists _, _, pre, _. split; [apply main_exact, Hctx |]. cbn [trace].
  split; [rewrite Hs, <- app_assoc; reflexivity |]. split; [exact Hu |].
  pose proof (run_calls_forall _ (played frames) frame_calls_plain
                               (initial_locals env)) as Hplain.
  assert (Rp : count_calls is_use_program
                 (run_calls (played frames) (initial_locals env)) = 0%nat).
  { apply count_calls_zero. eapply Forall_impl; [| exact Hplain].
    intros c Hc. apply Hc. }
  rewrite Hs, !count_calls_app, count_calls_cons, Hp, Hq, Rp.
  destruct (existsb quits frames); reflexivity.
Qed.

Lemma uniforms_after_use_program_witness :
  exists r w,
    main env_ok [frame_keys 1 [GLFW_KEY_L]] initial_world = Ret r w /\
    count_calls is_use_program (trace w) = 1%nat.
Proof.
  destruct (uniforms_after_use_program env_ok [frame_keys 1 [GLFW_KEY_L]]
                                       eq_refl)
    as (r & w & pre & post & Hrun & _ & _ & Hc).
  exists r, w. split; assumption.
Defined.

(** X19.  Escape does not cut its iteration short: compared with the same
    frame without Escape, the iteration makes the same calls after one
    leading [glfwSetWindowShouldClose(window, true)] and leaves the same
    locals, so movement, the light toggle and the draw of that frame still
    happen. *)
Theorem escape_frame_completes (f : FrameInput) (s : Locals) :
  pressed f GLFW_KEY_ESCAPE = true ->
  frame_calls f s
  = glfwSetWindowShouldClose true :: frame_calls (without_escape f) s /\
  frame_locals f s = frame_locals (without_escape f) s.
Proof.
  intros Hesc.
  assert (Hl : frame_locals f s = frame_locals (without_escape f) s).
  { rewrite !frame_locals_eq. reflexivity. }
  split; [| exact Hl].
  rewrite !frame_calls_eq, Hesc, <- Hl. reflexivity.
Qed.

Lemma escape_frame_completes_witness :
  camera (frame_locals (frame_keys 1 [GLFW_KEY_ESCAPE; GLFW_KEY_W])
                       sample_locals)
  = camera (frame_locals (without_escape
                            (frame_keys 1 [GLFW_KEY_ESCAPE; GLFW_KEY_W]))
                         sample_locals).
Proof.
  rewrite (proj2 (escape_frame_completes
                    (frame_keys 1 [GLFW_KEY_ESCAPE; GLFW_KEY_W])
                    sample_locals eq_refl)).
  reflexivity.
Defined.
